(** * EthereumExplorer: a shallow embedding of src/EthereumExplorer.js

    The class wraps a web3 handle.  Its own state is a handful of plain
    JavaScript objects used as dictionaries (contracts, contractDetails,
    callbacks), a cache of gas defaults and a cached user account.  Every
    substantive operation is a request to the web3 library, to the wallet
    provider or to a user callback; the embedding keeps these requests as
    the nodes of a program tree, so that "queries the chain" and "answers
    from the cache" are visible in the shape of the tree. *)

From stdpp Require Import gmap strings list pretty.

Set Warnings "-register-all".
Open Scope Z_scope.

(** ** JavaScript values *)

(** The values that flow through the class unchanged: parameters of a
    contract method, payloads of events, options, accounts, prices. *)
Inductive JsVal : Type :=
| JUndefined
| JNull
| JBool (b : bool)
| JNum (n : Z)
| JStr (s : string)
| JArr (items : list JsVal)
| JObj (fields : list (string * JsVal)).

(** ToBoolean. *)
Definition truthy (v : JsVal) : bool :=
  match v with
  | JUndefined | JNull => false
  | JBool b => b
  | JNum n => negb (n =? 0)
  | JStr s => negb (String.eqb s "")
  | JArr _ | JObj _ => true
  end.

(** The [typeof] operator. *)
Definition typeof (v : JsVal) : string :=
  match v with
  | JUndefined => "undefined"
  | JNull | JArr _ | JObj _ => "object"
  | JBool _ => "boolean"
  | JNum _ => "number"
  | JStr _ => "string"
  end.

(** [v === null]. *)
Definition is_null (v : JsVal) : bool :=
  match v with JNull => true | _ => false end.

(** [a || b] on values. *)
Definition js_or (a b : JsVal) : JsVal := if truthy a then a else b.

(** What a function raises or a promise is rejected with. *)
Inductive Error : Type :=
| TypeError                     (* raised by the engine: a member of null or
                                   undefined, a call of a non-function, the
                                   spread of a non-iterable *)
| ThrownString (msg : string)   (* a [throw '...'] of the class itself *)
| External (reason : JsVal).    (* raised or rejected by web3, by the
                                   provider or by a callback *)

Inductive Result (A : Type) : Type :=
| Ok (a : A)
| Throw (e : Error).
Arguments Ok {A} a.
Arguments Throw {A} e.

(** How a request to the outside ends: a promise settles once, a
    synchronous library call returns or raises. *)
Inductive Outcome (X : Type) : Type :=
| Resolved (x : X)
| Rejected (reason : JsVal).
Arguments Resolved {X} x.
Arguments Rejected {X} reason.

(** The spread [...v] of a value into an argument list.  Arrays and strings
    are iterable; a keyed object is not. *)
Definition spread (v : JsVal) : Result (list JsVal) :=
  match v with
  | JArr items => Ok items
  | JStr s => Ok (map (fun c => JStr (String c EmptyString)) (String.list_ascii_of_string s))
  | _ => Throw TypeError
  end.

(** ** Plain objects used as dictionaries *)

(** [{}] inherits from Object.prototype: a read [obj[k]] that finds no own
    property continues along the prototype chain, and [__proto__] is an
    accessor whose getter returns the prototype and whose setter replaces
    it. *)
Definition object_prototype_names : list string :=
  [ "constructor"; "__defineGetter__"; "__defineSetter__"; "hasOwnProperty";
    "__lookupGetter__"; "__lookupSetter__"; "isPrototypeOf";
    "propertyIsEnumerable"; "toString"; "valueOf"; "__proto__";
    "toLocaleString" ]%string.

Definition is_object_prototype_name (k : string) : bool :=
  existsb (String.eqb k) object_prototype_names.

Section Dict.
Context {V : Type}.

(** An object created by [{}] whose properties are written by
    [obj[k] = v] with [v] an object: [own] holds the own properties,
    [proto] the object installed by an assignment to [__proto__]
    ([None]: still Object.prototype). *)
Record JsDict : Type := mkDict {
  own : gmap string V;
  proto : option V
}.

(** What a read [obj[k]] evaluates to. *)
Inductive Lookup : Type :=
| Undefined
| Found (v : V)                  (* an own property, or the installed
                                    prototype read through [__proto__] *)
| Inherited (p : V) (k : string) (* property [k] of the installed prototype *)
| Builtin (k : string).          (* property [k] of Object.prototype
                                    (for [__proto__]: Object.prototype) *)

Definition dict_empty : JsDict := mkDict ∅ None.

Definition dict_get (d : JsDict) (k : string) : Lookup :=
  if String.eqb k "__proto__" then
    match proto d with
    | Some p => Found p
    | None => Builtin k
    end
  else
    match own d !! k with
    | Some v => Found v
    | None =>
        match proto d with
        | Some p => Inherited p k
        | None => if is_object_prototype_name k then Builtin k else Undefined
        end
    end.

(** [obj[k] = v]. *)
Definition dict_set (d : JsDict) (k : string) (v : V) : JsDict :=
  if String.eqb k "__proto__" then mkDict (own d) (Some v)
  else mkDict (<[k := v]> (own d)) (proto d).

(** [obj[k].field = ...]: the object read under [k] is changed in place. *)
Definition dict_update (d : JsDict) (k : string) (f : V → V) : JsDict :=
  if String.eqb k "__proto__" then mkDict (own d) (f <$> proto d)
  else mkDict (alter f k (own d)) (proto d).
End Dict.
Arguments JsDict V : clear implicits.
Arguments Lookup V : clear implicits.

(** ** Data model *)

(** An entry of a contract ABI, as far as the class reads it. *)
Record AbiItem : Type := mkAbiItem {
  name : option string;             (* [None]: the entry has no name *)
  stateMutability : option string   (* [None]: not declared *)
}.

(** The ABI argument of a registration: an array of entries, or nothing
    ([None] stands for undefined and null). *)
Definition Abi : Type := option (list AbiItem).

(** [this.contractDetails[contractName]]; a field is [None] until it is
    assigned. *)
Record ContractDetail : Type := mkDetail {
  address : option string;
  abi : Abi;
  contractName : option string
}.

Definition empty_detail : ContractDetail := mkDetail None None None.
Definition set_address (a : string) (d : ContractDetail) : ContractDetail :=
  mkDetail (Some a) (abi d) (contractName d).
Definition set_abi (b : Abi) (d : ContractDetail) : ContractDetail :=
  mkDetail (address d) b (contractName d).
Definition set_contractName (n : string) (d : ContractDetail) : ContractDetail :=
  mkDetail (address d) (abi d) (Some n).

(** The object built by [new web3.eth.Contract(abi, address)]: a handle
    owned by the library. *)
Inductive Instance : Type := InstanceId (n : nat).

(** A function passed to [on]. *)
Inductive Callback : Type := CallbackId (n : nat).

Inductive Provider : Type :=
| InjectedProvider               (* window.ethereum *)
| LegacyProvider                 (* window.web3.currentProvider *)
| HttpProvider (url : string).

(** [new Web3(provider)]. *)
Record Web3 : Type := mkWeb3 { currentProvider : Provider }.

(** The gas-price slot of the cache holds null or the promise returned by
    [web3.eth.getGasPrice()]; a promise is known by the way it settles. *)
Inductive GasPriceSlot : Type :=
| NoGasPrice
| GasPricePromise (settled : Outcome JsVal).

Definition slot_truthy (g : GasPriceSlot) : bool :=
  match g with NoGasPrice => false | GasPricePromise _ => true end.

Record DefaultOptions : Type := mkDefaults {
  gasLimit : JsVal;
  gasPrice : GasPriceSlot
}.

Record Session : Type := mkSession {
  web3 : option Web3;
  contracts : JsDict Instance;
  contractDetails : JsDict ContractDetail;
  defaultOptions : DefaultOptions;
  userAccount : JsVal;
  callbacks : gmap string Callback
}.

(** A block as returned by [web3.eth.getBlock]. *)
Record Block : Type := mkBlock {
  block_number : Z;
  block_gasLimit : JsVal
}.

(** The options argument of a transaction submission; an absent property
    reads as [JUndefined]. *)
Record TxOptions : Type := mkTxOptions {
  opt_nonce : JsVal;
  opt_gasPrice : JsVal;
  opt_gasLimit : JsVal;
  opt_value : JsVal
}.

Definition no_options : TxOptions :=
  mkTxOptions JUndefined JUndefined JUndefined JUndefined.

(** The transaction object assembled by the class. *)
Record TxData : Type := mkTxData {
  tx_from : JsVal;
  tx_to : JsVal;
  tx_nonce : JsVal;
  tx_gasPrice : JsVal;
  tx_gasLimit : JsVal;
  tx_value : option JsVal;   (* set only when options.value is truthy *)
  tx_data : option JsVal     (* set only on the self-signed path *)
}.

(** A compiled artifact: the deployment per network and the ABI.  The keys
    of [networks] are the decimal numerals of network identifiers, none of
    which names a property of Object.prototype, so [networks[netId]] reads
    own entries only. *)
Record NetworkEntry : Type := mkNetworkEntry { net_address : string }.
Record ContractJson : Type := mkContractJson {
  networks : gmap Z NetworkEntry;
  json_abi : Abi
}.

(** The environment in which [bootWeb3] runs. *)
Record Window : Type := mkWindow {
  window_ethereum : bool;
  window_web3 : bool
}.

(** What [contract.methods[...]] is read from: an instance, or a property
    of an instance reached through the prototype chain of [contracts]
    (whether the instance has such a property, and what comes of reading
    [methods] from it, is the library's affair). *)
Inductive Target : Type :=
| TInstance (c : Instance)
| TProperty (c : Instance) (k : string).

(** ** Requests to the outside *)

Inductive Request : Type → Type :=
| RequestAccounts : Request unit
| NetGetId : Request Z
| GetBlock (blockNumber : JsVal) : Request (option Block)
| GetBlockNumber : Request JsVal
| GetGasPrice : Request JsVal
| GetAccounts : Request (list JsVal)
| GetTransactionCount (from : JsVal) (tag : string) : Request JsVal
| NewContract (contractAbi : Abi) (contractAddress : string) : Request Instance
| MethodCall (t : Target) (method : string) (args : list JsVal)
    (options : JsVal) : Request JsVal
| EncodeABI (t : Target) (method : string) (args : list JsVal) : Request JsVal
| SignTransaction (tx : TxData) (privateKey : JsVal) : Request JsVal
| SendSignedTransaction (rawTransaction : JsVal) : Request unit
| MethodSend (t : Target) (method : string) (args : list JsVal)
    (tx : TxData) : Request unit   (* resolved: the method object was built
                                      and the send started; rejected: one
                                      of the two raised *)
| InvokeCallback (cb : Callback) (data : JsVal) : Request JsVal
| InvokeBuiltin (k : string) (data : JsVal) : Request JsVal.

(** A program: it returns, or issues a request and continues with the way
    the request ended. *)
Inductive Prog (A : Type) : Type :=
| Ret (a : A)
| Vis {X : Type} (q : Request X) (k : Outcome X → Prog A).
Arguments Ret {A} a.
Arguments Vis {A X} q k.

(** A method of the class: it runs on the session, may change it, and
    returns or throws. *)
Definition M (A : Type) : Type := Session → Prog (Session * Result A).

Definition ret {A} (a : A) : M A := fun s => Ret (s, Ok a).
Definition throw {A} (e : Error) : M A := fun s => Ret (s, Throw e).

Fixpoint prog_bind {A B} (p : Prog (Session * Result A))
    (f : A → M B) : Prog (Session * Result B) :=
  match p with
  | Ret (s, Ok a) => f a s
  | Ret (s, Throw e) => Ret (s, Throw e)
  | Vis q k => Vis q (fun o => prog_bind (k o) f)
  end.

Definition bind {A B} (m : M A) (f : A → M B) : M B :=
  fun s => prog_bind (m s) f.

Notation "'let*' x ':=' m 'in' k" := (bind m (fun x => k))
  (at level 10, x name, m at level 100, k at level 200).
Notation "'run*' m 'in' k" := (bind m (fun _ => k))
  (at level 10, m at level 100, k at level 200).

Definition get {A} (f : Session → A) : M A := fun s => Ret (s, Ok (f s)).
Definition modify (f : Session → Session) : M unit := fun s => Ret (f s, Ok tt).
Definition lift {A} (r : Result A) : M A := fun s => Ret (s, r).

(** [await q]: the request is issued and its rejection is thrown. *)
Definition await {X} (q : Request X) : M X :=
  fun s => Vis q (fun o =>
    match o with
    | Resolved x => Ret (s, Ok x)
    | Rejected e => Ret (s, Throw (External e))
    end).

(** The request is issued and the promise is kept as a value. *)
Definition promise {X} (q : Request X) : M (Outcome X) :=
  fun s => Vis q (fun o => Ret (s, Ok o)).

(** Returning a promise from an [async] function: the caller sees the
    promise's own settlement. *)
Definition settle {X} (o : Outcome X) : M X :=
  match o with
  | Resolved x => ret x
  | Rejected e => throw (External e)
  end.

(** The request is issued and nothing is awaited: what happens later
    arrives through the listeners attached to it. *)
Definition fire (q : Request unit) : M unit :=
  fun s => Vis q (fun _ => Ret (s, Ok tt)).

(** [this.web3.eth]: a member of null raises. *)
Definition web3_eth : M Web3 :=
  let* w := get web3 in
  match w with
  | Some h => ret h
  | None => throw TypeError
  end.

(** ** The class *)

Definition set_web3 (w : option Web3) (s : Session) : Session :=
  mkSession w (contracts s) (contractDetails s) (defaultOptions s)
    (userAccount s) (callbacks s).
Definition set_contracts (c : JsDict Instance) (s : Session) : Session :=
  mkSession (web3 s) c (contractDetails s) (defaultOptions s)
    (userAccount s) (callbacks s).
Definition set_contractDetails (d : JsDict ContractDetail) (s : Session) : Session :=
  mkSession (web3 s) (contracts s) d (defaultOptions s)
    (userAccount s) (callbacks s).
Definition set_gasLimit (v : JsVal) (s : Session) : Session :=
  mkSession (web3 s) (contracts s) (contractDetails s)
    (mkDefaults v (gasPrice (defaultOptions s))) (userAccount s) (callbacks s).
Definition set_gasPrice (g : GasPriceSlot) (s : Session) : Session :=
  mkSession (web3 s) (contracts s) (contractDetails s)
    (mkDefaults (gasLimit (defaultOptions s)) g) (userAccount s) (callbacks s).
Definition set_userAccount (v : JsVal) (s : Session) : Session :=
  mkSession (web3 s) (contracts s) (contractDetails s) (defaultOptions s)
    v (callbacks s).
Definition set_callbacks (c : gmap string Callback) (s : Session) : Session :=
  mkSession (web3 s) (contracts s) (contractDetails s) (defaultOptions s)
    (userAccount s) c.

(** [constructor()]. *)
Definition constructor : Session :=
  mkSession None dict_empty dict_empty (mkDefaults JNull NoGasPrice) JNull ∅.

(** [bootWeb3()]. *)
Definition bootWeb3 (window : Window) : M unit :=
  if window_ethereum window then
    run* await RequestAccounts in
    modify (set_web3 (Some (mkWeb3 InjectedProvider)))
  else if window_web3 window then
    modify (set_web3 (Some (mkWeb3 LegacyProvider)))
  else
    modify (set_web3 (Some (mkWeb3 (HttpProvider "http://localhost:7545")))).

(** [contract(contractName)]. *)
Definition contract (contractName : string) (s : Session) : Lookup Instance :=
  dict_get (contracts s) contractName.

(** [contractDetail(contractName)]. *)
Definition contractDetail (contractName : string) (s : Session)
    : Lookup ContractDetail :=
  dict_get (contractDetails s) contractName.

(** ToBoolean of what [contractDetail] returns.  A details object, a
    function of Object.prototype and Object.prototype itself are objects;
    a field inherited from an installed details object has the truth value
    of that field. *)
Definition detail_truthy (l : Lookup ContractDetail) : bool :=
  match l with
  | Undefined => false
  | Found _ => true
  | Builtin _ => true
  | Inherited p k =>
      if String.eqb k "address" then
        match address p with Some a => negb (String.eqb a "") | None => false end
      else if String.eqb k "abi" then
        match abi p with Some _ => true | None => false end
      else if String.eqb k "contractName" then
        match contractName p with Some n => negb (String.eqb n "") | None => false end
      else is_object_prototype_name k
  end.

(** [l.abi] for a truthy [l]: only a details object has the field. *)
Definition read_abi (l : Lookup ContractDetail) : Abi :=
  match l with
  | Found d => abi d
  | _ => None
  end.

(** [l.address] for a truthy [l]. *)
Definition read_address (l : Lookup ContractDetail) : JsVal :=
  match l with
  | Found d => match address d with Some a => JStr a | None => JUndefined end
  | _ => JUndefined
  end.

Definition str_val (o : option string) : JsVal :=
  match o with Some s => JStr s | None => JUndefined end.

(** [a == b] for a property that is a string or undefined and a string. *)
Definition loose_eq (a : option string) (b : string) : bool :=
  match a with Some x => String.eqb x b | None => false end.

(** [a && b] on values. *)
Definition js_and (a b : JsVal) : JsVal := if truthy a then b else a.

(** [loadContact(contractAddress, contractAbi, contractName)]. *)
Definition loadContact (contractAddress : string) (contractAbi : Abi)
    (contractName : string) : M unit :=
  run* modify (fun s => set_contractDetails
    (dict_set (contractDetails s) contractName empty_detail) s) in
  run* modify (fun s => set_contractDetails
    (dict_update (contractDetails s) contractName (set_address contractAddress)) s) in
  run* modify (fun s => set_contractDetails
    (dict_update (contractDetails s) contractName (set_abi contractAbi)) s) in
  run* modify (fun s => set_contractDetails
    (dict_update (contractDetails s) contractName (set_contractName contractName)) s) in
  run* web3_eth in
  let* c := await (NewContract contractAbi contractAddress) in
  modify (fun s => set_contracts (dict_set (contracts s) contractName c) s).

(** [getNetworkId()]. *)
Definition getNetworkId : M Z :=
  run* web3_eth in
  await NetGetId.

Definition network_mismatch_message (netId : Z) : string :=
  "The network ID does not exist in the JSON of the contract. Probably you have to change network. Current network: "
  +:+ pretty netId.

(** [loadContractFromJson(contractJson, contractName)]. *)
Definition loadContractFromJson (contractJson : ContractJson)
    (contractName : string) : M unit :=
  let* netId := getNetworkId in
  match networks contractJson !! netId with
  | None => throw (ThrownString (network_mismatch_message netId))
  | Some entry =>
      loadContact (net_address entry) (json_abi contractJson) contractName
  end.

(** [x.methods] for what [contract(...)] returned: undefined has no
    members, and a function of Object.prototype has no [methods], so that
    [methods[method]] is read from undefined. *)
Definition method_target (l : Lookup Instance) : Result Target :=
  match l with
  | Undefined => Throw TypeError
  | Builtin _ => Throw TypeError
  | Found c => Ok (TInstance c)
  | Inherited c k => Ok (TProperty c k)
  end.

(** [call(method, param, contractName, options)]. *)
Definition call (method : string) (param : JsVal) (contractName : string)
    (options : JsVal) : M JsVal :=
  if is_null param then
    let* t := (fun s => lift (method_target (contract contractName s)) s) in
    await (MethodCall t method [] options)
  else if String.eqb (typeof param) "object" then
    let* t := (fun s => lift (method_target (contract contractName s)) s) in
    let* args := lift (spread param) in
    await (MethodCall t method args options)
  else
    let* t := (fun s => lift (method_target (contract contractName s)) s) in
    await (MethodCall t method [param] options).

(** [methodTypeIs(type, method, contractName)]. *)
Definition methodTypeIs (type method contractName : string) (s : Session) : JsVal :=
  if detail_truthy (contractDetail contractName s) then
    match read_abi (contractDetail contractName s) with
    | Some items =>
        let fnc := List.filter (fun item => loose_eq (name item) method) items in
        match fnc with
        | [] => JNull
        | fnc0 :: _ =>
            js_and (str_val (stateMutability fnc0))
                   (JBool (loose_eq (stateMutability fnc0) type))
        end
    | None => JNull
    end
  else JNull.

(** [methodIsViewOrPure], [methodIsPayable], [methodIsNonPayable]. *)
Definition methodIsViewOrPure (method contractName : string) (s : Session) : JsVal :=
  js_or (methodTypeIs "view" method contractName s)
        (methodTypeIs "pure" method contractName s).
Definition methodIsPayable (method contractName : string) (s : Session) : JsVal :=
  methodTypeIs "payable" method contractName s.
Definition methodIsNonPayable (method contractName : string) (s : Session) : JsVal :=
  methodTypeIs "nonpayable" method contractName s.

(** [getBlock(blockNumber)], [getBlockNumber()]. *)
Definition getBlock (blockNumber : JsVal) : M (option Block) :=
  run* web3_eth in
  await (GetBlock blockNumber).
Definition getBlockNumber : M JsVal :=
  run* web3_eth in
  await GetBlockNumber.

(** [getGasLimit(fromCache)]. *)
Definition getGasLimit (fromCache : bool) : M JsVal :=
  let* cached := get (fun s => gasLimit (defaultOptions s)) in
  if truthy cached && fromCache then ret cached
  else
    let* block := getBlock (JStr "latest") in
    match block with
    | Some b =>
        run* modify (set_gasLimit (block_gasLimit b)) in
        get (fun s => gasLimit (defaultOptions s))
    | None => ret JNull
    end.

(** Returning the gas-price slot from an [async] function. *)
Definition return_slot (g : GasPriceSlot) : M JsVal :=
  match g with
  | NoGasPrice => ret JNull
  | GasPricePromise o => settle o
  end.

(** [getGasPrice(fromCache)].  The promise of the query is not awaited:
    the test [if (gasPrice)] sees the promise, and the promise is what is
    stored. *)
Definition getGasPrice (fromCache : bool) : M JsVal :=
  let* cached := get (fun s => gasPrice (defaultOptions s)) in
  if slot_truthy cached && fromCache then return_slot cached
  else
    run* web3_eth in
    let* gasPrice := promise GetGasPrice in
    if slot_truthy (GasPricePromise gasPrice) then
      run* modify (set_gasPrice (GasPricePromise gasPrice)) in
      return_slot (GasPricePromise gasPrice)
    else ret JNull.

(** [getTransactionData(from, to, options)]. *)
Definition getTransactionData (from to : JsVal) (options : TxOptions) : M TxData :=
  let* nonce :=
    (if truthy (opt_nonce options) then ret (opt_nonce options)
     else run* web3_eth in await (GetTransactionCount from "pending")) in
  let* gasPrice :=
    (if truthy (opt_gasPrice options) then ret (opt_gasPrice options)
     else getGasPrice false) in
  let* gasLimit :=
    (if truthy (opt_gasLimit options) then ret (opt_gasLimit options)
     else getGasLimit false) in
  ret (mkTxData from to nonce gasPrice gasLimit None None).

Definition with_value (v : JsVal) (tx : TxData) : TxData :=
  mkTxData (tx_from tx) (tx_to tx) (tx_nonce tx) (tx_gasPrice tx)
    (tx_gasLimit tx) (Some v) (tx_data tx).
Definition with_data (v : JsVal) (tx : TxData) : TxData :=
  mkTxData (tx_from tx) (tx_to tx) (tx_nonce tx) (tx_gasPrice tx)
    (tx_gasLimit tx) (tx_value tx) (Some v).

Definition not_found_message : string := "Contract address not found!".

(** [sendTxToSmartContract(fromAddress, fromPrivateKey, contractFnc,
    contractData, options, contractName)].  Both paths attach to the
    submission three listeners that forward [transactionHash], [receipt]
    and [error] to [emit]; the method returns the session manager.  On the
    provider-signed path [methods[contractFnc](...contractData)] runs
    before [send]: when it raises (no such method, arguments refused) the
    submission throws, and when it returns the send is started and what
    comes of it is left to the listeners. *)
Definition sendTxToSmartContract (fromAddress fromPrivateKey : JsVal)
    (contractFnc : string) (contractData : list JsVal) (options : TxOptions)
    (contractName : string) : M unit :=
  let* found := get (fun s => detail_truthy (contractDetail contractName s)) in
  if negb found then throw (ThrownString not_found_message)
  else
    let* to := get (fun s => read_address (contractDetail contractName s)) in
    let* txData := getTransactionData fromAddress to options in
    let txData :=
      if truthy (opt_value options) then with_value (opt_value options) txData
      else txData in
    if truthy fromPrivateKey then
      let* t := (fun s => lift (method_target (contract contractName s)) s) in
      let* data := await (EncodeABI t contractFnc contractData) in
      let txData := if truthy data then with_data data txData else txData in
      run* web3_eth in
      let* rawTransaction := await (SignTransaction txData fromPrivateKey) in
      run* web3_eth in
      fire (SendSignedTransaction rawTransaction)
    else
      let* t := (fun s => lift (method_target (contract contractName s)) s) in
      await (MethodSend t contractFnc contractData txData).

(** [getUserAccount()]. *)
Definition getUserAccount : M JsVal :=
  let* cached := get userAccount in
  if truthy cached then ret cached
  else
    run* web3_eth in
    let* accounts := await GetAccounts in
    run* modify (set_userAccount (nth 0 accounts JUndefined)) in
    get userAccount.

(** What [this.callbacks[eventName]] evaluates to.  The table is written
    only under a name whose read is falsy, hence never under a name
    inherited from Object.prototype: its prototype stays Object.prototype
    and its own properties are the registered callbacks. *)
Inductive Handler : Type :=
| NoHandler                       (* undefined *)
| UserHandler (cb : Callback)     (* an own property *)
| PrototypeMember (k : string).   (* Object.prototype's property [k] *)

Definition callback_get (cbs : gmap string Callback) (eventName : string)
    : Handler :=
  match cbs !! eventName with
  | Some cb => UserHandler cb
  | None => if is_object_prototype_name eventName then PrototypeMember eventName
            else NoHandler
  end.

Definition handler_truthy (h : Handler) : bool :=
  match h with NoHandler => false | _ => true end.

(** [on(eventName, callback)]; it returns the session manager. *)
Definition on (eventName : string) (callback : Callback) : M unit :=
  let* cbs := get callbacks in
  if negb (handler_truthy (callback_get cbs eventName)) then
    modify (set_callbacks (<[eventName := callback]> cbs))
  else ret tt.

(** [emit(eventName, data)].  Every member of Object.prototype is a
    function, except [__proto__], which reads as Object.prototype itself. *)
Definition emit (eventName : string) (data : JsVal) : M JsVal :=
  let* cbs := get callbacks in
  if handler_truthy (callback_get cbs eventName) then
    match callback_get cbs eventName with
    | UserHandler cb => await (InvokeCallback cb data)
    | PrototypeMember k =>
        if String.eqb k "__proto__" then throw TypeError
        else await (InvokeBuiltin k data)
    | NoHandler => ret JUndefined
    end
  else ret JUndefined.

(** The listeners that [sendTxToSmartContract] attaches to a submission:
    an event received under one of these names is handed to [emit] under
    the same name. *)
Definition forwarded_events : list string :=
  [ "transactionHash"; "receipt"; "error" ]%string.
Definition listener (eventName : string) (data : JsVal) : M JsVal :=
  emit eventName data.

(** ** Running a program against an environment *)

(** The environment answers every request. *)
Definition Oracle : Type := ∀ X, Request X → Outcome X.

(** A request that was issued. *)
Inductive Issued : Type :=
| issued (X : Type) (q : Request X).
Arguments issued {X} q.

Fixpoint run {A} (env : Oracle) (p : Prog A) : list Issued * A :=
  match p with
  | Ret a => ([], a)
  | Vis q k =>
      let (t, a) := run env (k (env _ q)) in (issued q :: t, a)
  end.

(** [n] successive calls of a method, with their results. *)
Fixpoint times {A} (n : nat) (m : M A) : M (list A) :=
  match n with
  | O => ret []
  | S n' =>
      let* a := m in
      let* rest := times n' m in
      ret (a :: rest)
  end.

(** The session a run ends in, and what it returned or threw. *)
Definition final_session {A} (r : list Issued * (Session * Result A)) : Session :=
  fst (snd r).
Definition final_result {A} (r : list Issued * (Session * Result A)) : Result A :=
  snd (snd r).
Definition trace {A} (r : list Issued * (Session * Result A)) : list Issued :=
  fst r.

(** [bootWeb3] has stored a handle. *)
Definition connected (s : Session) : bool :=
  match web3 s with Some _ => true | None => false end.

(** The requests the nonce field of [getTransactionData] costs, and what
    the field holds when the node reports [count] pending transactions. *)
Definition nonce_queries (from : JsVal) (options : TxOptions) : list Issued :=
  if truthy (opt_nonce options) then []
  else [issued (GetTransactionCount from "pending")].
Definition nonce_field (options : TxOptions) (count : JsVal) : JsVal :=
  if truthy (opt_nonce options) then opt_nonce options else count.

(** A sequence of registrations [on(e1, cb1); on(e2, cb2); ...]. *)
Fixpoint on_all (registrations : list (string * Callback)) : M unit :=
  match registrations with
  | [] => ret tt
  | (eventName, callback) :: rest =>
      run* on eventName callback in
      on_all rest
  end.

(** [s'] differs from [s] at most in the cache of gas defaults. *)
Definition same_but_gas (s s' : Session) : Prop :=
  web3 s' = web3 s
  ∧ contracts s' = contracts s
  ∧ contractDetails s' = contractDetails s
  ∧ userAccount s' = userAccount s
  ∧ callbacks s' = callbacks s.

(** Whatever the environment [env] answers, the method [m] ends in a
    session satisfying [Q] when it starts in one. *)
Definition preserves {A} (env : Oracle) (Q : Session → Prop) (m : M A) : Prop :=
  ∀ s, Q s → Q (final_session (run env (m s))).

(** The outcome of an awaited request as a result. *)
Definition awaited {X} (o : Outcome X) : Result X :=
  match o with
  | Resolved x => Ok x
  | Rejected e => Throw (External e)
  end.

(** An error that the class did not throw itself: raised by the engine, or
    a failure of web3, of the provider or of a callback. *)
Definition engine_or_external (e : Error) : Prop :=
  e = TypeError ∨ ∃ reason, e = External reason.

(** Whatever the environment [env] answers, every error the method [m]
    ends in satisfies [R]. *)
Definition throws_only {A} (env : Oracle) (R : Error → Prop) (m : M A) : Prop :=
  ∀ s e, final_result (run env (m s)) = Throw e → R e.

(** The first registration under [eventName] in a sequence. *)
Definition first_registration (eventName : string)
    (registrations : list (string * Callback)) : option Callback :=
  snd <$> List.find (fun r => String.eqb (fst r) eventName) registrations.

(** ** Sessions and an environment to evaluate on *)

(** A session after [bootWeb3] found no injected provider. *)
Definition booted : Session :=
  set_web3 (Some (mkWeb3 (HttpProvider "http://localhost:7545"))) constructor.

(** A connected session whose gas defaults are cached: gas limit 100, and
    a gas-price promise that resolved to 5. *)
Definition cached_session : Session :=
  set_gasPrice (GasPricePromise (Resolved (JNum 5)))
    (set_gasLimit (JNum 100) booted).

(** The ABI of the contract "Users". *)
Definition users_abi : list AbiItem :=
  [ mkAbiItem (Some "getUser") (Some "view");
    mkAbiItem (Some "updateUser") (Some "nonpayable");
    mkAbiItem (Some "UserUpdated") None ]%string.

(** A node on network 5777: gas price 7, latest block 10 with gas limit
    200, no account exposed, three transactions sent so far. *)
Definition node : Oracle := fun X q =>
  match q in Request X return Outcome X with
  | RequestAccounts => Resolved tt
  | NetGetId => Resolved 5777
  | GetBlock _ => Resolved (Some (mkBlock 10 (JNum 200)))
  | GetBlockNumber => Resolved (JNum 10)
  | GetGasPrice => Resolved (JNum 7)
  | GetAccounts => Resolved []
  | GetTransactionCount _ _ => Resolved (JNum 3)
  | NewContract _ _ => Resolved (InstanceId 1)
  | MethodCall _ _ _ _ => Resolved (JStr "result")
  | EncodeABI _ _ _ => Resolved (JStr "0xdata")
  | SignTransaction _ _ => Resolved (JStr "0xraw")
  | SendSignedTransaction _ => Resolved tt
  | MethodSend _ _ _ _ => Resolved tt
  | InvokeCallback _ _ => Resolved JUndefined
  | InvokeBuiltin _ _ => Resolved JUndefined
  end.

(** The session after [loadContact('0xABC', users_abi, 'Users')]. *)
Definition users_session : Session :=
  final_session (run node (loadContact "0xABC" (Some users_abi) "Users" booted)).

(** A compiled artifact deployed on the networks 1 and 5777. *)
Definition users_json : ContractJson :=
  mkContractJson
    (<[1 := mkNetworkEntry "0xDEF"]> (<[5777 := mkNetworkEntry "0xABC"]> ∅))
    (Some users_abi).

(** * Properties *)

(** On a goal [connected s = true → G]: the handle of [s] is named and the
    hypothesis is consumed. *)
Ltac with_handle s Hw :=
  unfold connected;
  destruct (web3 s) as [?|] eqn:Hw; [intros _|discriminate].

(** ** Connection *)

(** Without an injected provider [bootWeb3] falls back to the local
    endpoint, and with the wallet extension it asks for the accounts first;
    a refusal is thrown and leaves the session without a handle. *)
Example bootWeb3_fallback :
  bootWeb3 (mkWindow false false) constructor = Ret (booted, Ok tt)
  ∧ connected booted = true
  ∧ ∃ k, bootWeb3 (mkWindow true false) constructor = Vis RequestAccounts k
      ∧ k (Rejected (JStr "denied")) =
          Ret (constructor, Throw (External (JStr "denied")))
      ∧ k (Resolved tt) =
          Ret (set_web3 (Some (mkWeb3 InjectedProvider)) constructor, Ok tt).
Proof.
  split; [reflexivity|]. split; [reflexivity|].
  eexists. split; [reflexivity|]. split; reflexivity.
Qed.

(** ** Dictionaries *)

Section DictFacts.
Context {V : Type}.
Implicit Types (d : JsDict V) (k : string) (v : V).

Lemma dict_get_set_eq d k v : dict_get (dict_set d k v) k = Found v.
Proof.
  unfold dict_get, dict_set.
  destruct (String.eqb k "__proto__") eqn:E; simpl; [reflexivity|].
  by rewrite lookup_insert_eq.
Qed.

Lemma dict_set_set d k v v' : dict_set (dict_set d k v) k v' = dict_set d k v'.
Proof.
  unfold dict_set.
  destruct (String.eqb k "__proto__"); simpl; [reflexivity|].
  by rewrite insert_insert_eq.
Qed.

Lemma dict_update_set d k v (f : V → V) :
  dict_update (dict_set d k v) k f = dict_set d k (f v).
Proof.
  unfold dict_update, dict_set.
  destruct (String.eqb k "__proto__"); simpl; [reflexivity|].
  by rewrite alter_insert_eq.
Qed.

Lemma dict_get_set_ne d k k' v :
  k ≠ k' → k ≠ "__proto__"%string →
  dict_get (dict_set d k v) k' = dict_get d k'.
Proof.
  intros Hne Hk. unfold dict_get, dict_set.
  destruct (String.eqb k "__proto__") eqn:E.
  - apply String.eqb_eq in E. contradiction.
  - simpl. by rewrite lookup_insert_ne.
Qed.

Lemma dict_get_empty k :
  dict_get (@dict_empty V) k =
    if is_object_prototype_name k then Builtin k else Undefined.
Proof.
  unfold dict_get, dict_empty; simpl.
  destruct (String.eqb k "__proto__") eqn:E.
  - apply String.eqb_eq in E. by subst k.
  - by rewrite lookup_empty.
Qed.
End DictFacts.

(** ** Gas limit *)

Lemma getGasLimit_cached (s : Session) :
  truthy (gasLimit (defaultOptions s)) = true →
  getGasLimit true s = Ret (s, Ok (gasLimit (defaultOptions s))).
Proof.
  intros H. unfold getGasLimit, bind, get; simpl. by rewrite H.
Qed.

Lemma getGasLimit_fresh (s : Session) :
  connected s = true →
  ∃ k, getGasLimit false s = Vis (GetBlock (JStr "latest")) k
    ∧ (∀ b, k (Resolved (Some b)) =
              Ret (set_gasLimit (block_gasLimit b) s, Ok (block_gasLimit b)))
    ∧ k (Resolved None) = Ret (s, Ok JNull)
    ∧ (∀ e, k (Rejected e) = Ret (s, Throw (External e))).
Proof.
  with_handle s Hw.
  unfold getGasLimit, getBlock, web3_eth, bind, get; simpl.
  rewrite andb_false_r, Hw; simpl.
  eexists; split; [reflexivity|]. by repeat split.
Qed.

(** C6. With a cached gas limit present (a truthy value: a non-zero
    number), [getGasLimit(true)] returns it and issues no request.  On a
    connected session [getGasLimit(false)] asks for the latest block
    whatever is cached; when the block arrives, its gas limit is stored in
    the cache and returned; when no block arrives, the result is null and
    the cache is left as it was. *)
Theorem getGasLimit_cache_and_refresh (s : Session) :
  (truthy (gasLimit (defaultOptions s)) = true →
     getGasLimit true s = Ret (s, Ok (gasLimit (defaultOptions s))))
  ∧ (connected s = true →
     ∃ k, getGasLimit false s = Vis (GetBlock (JStr "latest")) k
       ∧ (∀ b, k (Resolved (Some b)) =
                 Ret (set_gasLimit (block_gasLimit b) s, Ok (block_gasLimit b)))
       ∧ (∀ b, gasLimit (defaultOptions (set_gasLimit (block_gasLimit b) s))
                 = block_gasLimit b)
       ∧ k (Resolved None) = Ret (s, Ok JNull)).
Proof.
  split.
  - apply getGasLimit_cached.
  - intros Hc. destruct (getGasLimit_fresh s Hc) as (k & Hk & Hsome & Hnone & _).
    exists k. repeat split; assumption || reflexivity.
Qed.

Lemma getGasLimit_cache_and_refresh_witness :
  getGasLimit true cached_session = Ret (cached_session, Ok (JNum 100))
  ∧ ∃ k, getGasLimit false cached_session = Vis (GetBlock (JStr "latest")) k
      ∧ k (Resolved (Some (mkBlock 10 (JNum 200)))) =
          Ret (set_gasLimit (JNum 200) cached_session, Ok (JNum 200)).
Proof.
  destruct (getGasLimit_cache_and_refresh cached_session) as [Hcache Hfresh].
  split.
  - apply Hcache. reflexivity.
  - destruct Hfresh as (k & Hk & Hsome & _); [reflexivity|].
    exists k. split; [exact Hk|]. apply (Hsome (mkBlock 10 (JNum 200))).
Defined.

(** ** User account *)

Lemma getUserAccount_cached (s : Session) :
  truthy (userAccount s) = true →
  getUserAccount s = Ret (s, Ok (userAccount s)).
Proof.
  intros H. unfold getUserAccount, bind, get; simpl. by rewrite H.
Qed.

Lemma times_getUserAccount_cached (s : Session) (n : nat) :
  truthy (userAccount s) = true →
  times n getUserAccount s = Ret (s, Ok (replicate n (userAccount s))).
Proof.
  intros H. induction n as [|n IH]; [reflexivity|].
  simpl. unfold bind at 1. rewrite (getUserAccount_cached s H); simpl.
  unfold bind at 1. rewrite IH. reflexivity.
Qed.

Lemma getUserAccount_query (s : Session) :
  connected s = true →
  truthy (userAccount s) = false →
  ∃ k, getUserAccount s = Vis GetAccounts k
    ∧ (∀ accounts, k (Resolved accounts) =
         Ret (set_userAccount (nth 0 accounts JUndefined) s,
              Ok (nth 0 accounts JUndefined))).
Proof.
  with_handle s Hw.
  intros H. unfold getUserAccount, web3_eth, bind, get; simpl.
  rewrite H, Hw; simpl. eexists; split; [reflexivity|]. reflexivity.
Qed.

(** C10. On a connected session whose account cache is empty,
    [getUserAccount] asks the provider; if the provider exposes no account
    the result is undefined, the cache stays falsy, and the next call asks
    the provider again.  Once a non-empty first account is in the cache,
    any number of later calls return it, leave the session as it is and
    issue no request. *)
Theorem getUserAccount_caching (s : Session) :
  (connected s = true → truthy (userAccount s) = false →
     ∃ k, getUserAccount s = Vis GetAccounts k
       ∧ k (Resolved []) = Ret (set_userAccount JUndefined s, Ok JUndefined)
       ∧ truthy (userAccount (set_userAccount JUndefined s)) = false
       ∧ (∃ k', getUserAccount (set_userAccount JUndefined s) = Vis GetAccounts k')
       ∧ (∀ a rest, k (Resolved (a :: rest)) = Ret (set_userAccount a s, Ok a)))
  ∧ (∀ a : string, a ≠ ""%string →
       ∀ n, times n getUserAccount (set_userAccount (JStr a) s)
            = Ret (set_userAccount (JStr a) s, Ok (replicate n (JStr a)))).
Proof.
  split.
  - intros Hc Hu.
    destruct (getUserAccount_query s Hc Hu) as (k & Hk & Hres).
    exists k. split; [exact Hk|]. split; [apply (Hres [])|].
    split; [reflexivity|]. split.
    + destruct (getUserAccount_query (set_userAccount JUndefined s)) as (k' & Hk' & _);
        [exact Hc | reflexivity | by exists k'].
    + intros a rest. apply (Hres (a :: rest)).
  - intros a Ha n.
    apply (times_getUserAccount_cached (set_userAccount (JStr a) s) n).
    simpl. destruct (String.eqb a "") eqn:E; [|reflexivity].
    apply String.eqb_eq in E. contradiction.
Qed.

Lemma getUserAccount_caching_witness :
  (∃ k, getUserAccount booted = Vis GetAccounts k
     ∧ k (Resolved []) = Ret (set_userAccount JUndefined booted, Ok JUndefined)
     ∧ k (Resolved [JStr "0x8aD7"; JStr "0x1e5d"]) =
         Ret (set_userAccount (JStr "0x8aD7") booted, Ok (JStr "0x8aD7")))
  ∧ times 3 getUserAccount (set_userAccount (JStr "0x8aD7") booted)
    = Ret (set_userAccount (JStr "0x8aD7") booted,
           Ok [JStr "0x8aD7"; JStr "0x8aD7"; JStr "0x8aD7"]).
Proof.
  destruct (getUserAccount_caching booted) as [Hquery Hcached].
  split.
  - destruct Hquery as (k & Hk & Hnone & _ & _ & Hsome); [reflexivity..|].
    exists k. split; [exact Hk|]. split; [exact Hnone|]. apply Hsome.
  - apply (Hcached "0x8aD7"%string); discriminate.
Defined.

(** ** Registration *)

(** The details stored by a registration. *)
Lemma loadContact_run (env : Oracle) (s : Session) (A : string) (B : Abi)
    (N : string) :
  let s1 := set_contractDetails
              (dict_set (contractDetails s) N (mkDetail (Some A) B (Some N))) s in
  run env (loadContact A B N s) =
    match web3 s with
    | None => ([], (s1, Throw TypeError))
    | Some _ =>
        ([issued (NewContract B A)],
         match env _ (NewContract B A) with
         | Resolved c => (set_contracts (dict_set (contracts s) N c) s1, Ok tt)
         | Rejected e => (s1, Throw (External e))
         end)
    end.
Proof.
  unfold loadContact, web3_eth, bind, modify, get; simpl.
  rewrite !dict_update_set; simpl.
  destruct (web3 s) as [w|]; simpl; [|reflexivity].
  destruct (env _ (NewContract B A)); reflexivity.
Qed.

Lemma loadContact_details (env : Oracle) (s : Session) (A : string) (B : Abi)
    (N : string) :
  contractDetails (final_session (run env (loadContact A B N s))) =
    dict_set (contractDetails s) N (mkDetail (Some A) B (Some N)).
Proof.
  rewrite loadContact_run. unfold final_session.
  destruct (web3 s); simpl; [|reflexivity].
  destruct (env _ (NewContract B A)); reflexivity.
Qed.

Lemma loadContact_contract (env : Oracle) (s : Session) (A : string) (B : Abi)
    (N : string) (c : Instance) :
  connected s = true →
  env _ (NewContract B A) = Resolved c →
  contract N (final_session (run env (loadContact A B N s))) = Found c.
Proof.
  unfold connected. intros Hc He. rewrite loadContact_run. unfold final_session.
  destruct (web3 s); [|discriminate]. rewrite He; simpl.
  unfold contract; simpl. apply dict_get_set_eq.
Qed.

(** C9. After [loadContact(A, B, N)], however the construction of the
    callable ends, [contractDetail(N)] is the details object holding
    exactly address [A], ABI [B] and name [N].  A second registration
    [(A', B')] under [N] leaves nothing of the first: the table of details
    is the one a registration of [(A', B')] alone produces.  On a connected
    session on which web3 builds the callable, [contract(N)] is the
    callable built by the latest registration. *)
Theorem loadContact_contractDetail (env env' : Oracle) (s : Session)
    (A A' : string) (B B' : Abi) (N : string) :
  let s1 := final_session (run env (loadContact A B N s)) in
  let s2 := final_session (run env' (loadContact A' B' N s1)) in
  contractDetail N s1 = Found (mkDetail (Some A) B (Some N))
  ∧ contractDetail N s2 = Found (mkDetail (Some A') B' (Some N))
  ∧ contractDetails s2 =
      contractDetails (final_session (run env' (loadContact A' B' N s)))
  ∧ (∀ c, connected s = true → env _ (NewContract B A) = Resolved c →
       contract N s1 = Found c)
  ∧ (∀ c', connected s = true → env' _ (NewContract B' A') = Resolved c' →
       contract N s2 = Found c').
Proof.
  intros s1 s2. subst s1 s2. unfold contractDetail.
  rewrite !loadContact_details. rewrite dict_set_set, !dict_get_set_eq.
  repeat split; [|].
  - intros c Hc He. by apply loadContact_contract.
  - intros c' Hc He. apply loadContact_contract; [|exact He].
    unfold connected in *. rewrite loadContact_run. unfold final_session.
    destruct (web3 s) eqn:Hw; [|discriminate].
    destruct (env _ (NewContract B A)); simpl; by rewrite Hw.
Qed.

Lemma loadContact_contractDetail_witness :
  contractDetail "Users" users_session
    = Found (mkDetail (Some "0xABC"%string) (Some users_abi) (Some "Users"%string))
  ∧ contractDetail "Users"
      (final_session (run node (loadContact "0xDEF" None "Users" users_session)))
    = Found (mkDetail (Some "0xDEF"%string) None (Some "Users"%string))
  ∧ contract "Users" users_session = Found (InstanceId 1).
Proof.
  destruct (loadContact_contractDetail node node booted "0xABC" "0xDEF"
              (Some users_abi) None "Users") as (H1 & H2 & _ & H4 & _).
  split; [exact H1|]. split; [exact H2|].
  apply H4; reflexivity.
Defined.

(** A registration under [__proto__] installs the details object as the
    prototype of the table and is read back like any other. *)
Example loadContact_proto :
  contractDetail "__proto__"
    (final_session (run node (loadContact "0xABC" None "__proto__" booted)))
  = Found (mkDetail (Some "0xABC"%string) None (Some "__proto__"%string)).
Proof. reflexivity. Qed.

(** ** Registration from a compiled artifact *)

Lemma loadContractFromJson_run (env : Oracle) (s : Session)
    (json : ContractJson) (N : string) (netId : Z) :
  connected s = true →
  env _ NetGetId = Resolved netId →
  run env (loadContractFromJson json N s) =
    match networks json !! netId with
    | None =>
        ([issued NetGetId],
         (s, Throw (ThrownString (network_mismatch_message netId))))
    | Some entry =>
        (issued NetGetId ::
           trace (run env (loadContact (net_address entry) (json_abi json) N s)),
         snd (run env (loadContact (net_address entry) (json_abi json) N s)))
    end.
Proof.
  unfold connected. intros Hc He.
  unfold loadContractFromJson, getNetworkId, web3_eth, bind, get.
  simpl. destruct (web3 s) as [w|] eqn:Hw; [|discriminate]. simpl.
  rewrite He; simpl.
  destruct (networks json !! netId) as [entry|]; simpl; [|reflexivity].
  unfold trace. by destruct (run env (loadContact _ _ N s)).
Qed.

Lemma loadContact_never_throws_string (env : Oracle) (s : Session) (A : string)
    (B : Abi) (N : string) (msg : string) :
  final_result (run env (loadContact A B N s)) ≠ Throw (ThrownString msg).
Proof.
  rewrite loadContact_run. unfold final_result.
  destruct (web3 s); simpl; [|discriminate].
  destruct (env _ (NewContract B A)); discriminate.
Qed.

(** C8. On a connected session whose network identifier resolves to
    [netId], [loadContractFromJson] throws the network-mismatch message
    exactly when the artifact's network map has no entry for [netId]; it
    then leaves the session as it was.  When the entry exists, the method
    continues as [loadContact] with the entry's address, the artifact's
    ABI and the given name, which stores exactly these details. *)
Theorem loadContractFromJson_network (env : Oracle) (s : Session)
    (json : ContractJson) (N : string) (netId : Z) :
  connected s = true →
  env _ NetGetId = Resolved netId →
  let r := run env (loadContractFromJson json N s) in
  (final_result r = Throw (ThrownString (network_mismatch_message netId))
     ↔ networks json !! netId = None)
  ∧ (networks json !! netId = None → final_session r = s)
  ∧ (∀ entry, networks json !! netId = Some entry →
       r = (issued NetGetId ::
              trace (run env (loadContact (net_address entry) (json_abi json) N s)),
            snd (run env (loadContact (net_address entry) (json_abi json) N s)))
       ∧ contractDetail N (final_session r) =
           Found (mkDetail (Some (net_address entry)) (json_abi json) (Some N))).
Proof.
  intros Hc He r. subst r. rewrite (loadContractFromJson_run env s json N netId Hc He).
  destruct (networks json !! netId) as [entry|] eqn:Hn.
  - split; [|split].
    + split; [|discriminate]. intros H. exfalso.
      exact (loadContact_never_throws_string env s _ _ N _ H).
    + discriminate.
    + intros entry' [= <-]. split; [reflexivity|].
      unfold contractDetail.
      change (final_session (_, snd ?x)) with (final_session x).
      rewrite loadContact_details. apply dict_get_set_eq.
  - split; [|split].
    + split; reflexivity.
    + reflexivity.
    + discriminate.
Qed.

Lemma loadContractFromJson_network_witness :
  final_result (run node (loadContractFromJson (mkContractJson ∅ None) "Users" booted))
    = Throw (ThrownString (network_mismatch_message 5777))
  ∧ contractDetail "Users"
      (final_session (run node (loadContractFromJson users_json "Users" booted)))
    = Found (mkDetail (Some "0xABC"%string) (Some users_abi) (Some "Users"%string)).
Proof.
  split.
  - apply (loadContractFromJson_network node booted (mkContractJson ∅ None)
             "Users" 5777); reflexivity.
  - destruct (loadContractFromJson_network node booted users_json "Users" 5777)
      as (_ & _ & H); [reflexivity..|].
    apply (H (mkNetworkEntry "0xABC")). reflexivity.
Defined.

(** ** Method introspection *)

Lemma filter_no_match {A} (f : A → bool) (l : list A) :
  Forall (fun x => f x = false) l → List.filter f l = [].
Proof.
  induction 1 as [|x l Hx _ IH]; simpl; [reflexivity|]. by rewrite Hx.
Qed.

Lemma filter_first_match {A} (f : A → bool) (before after : list A) (x : A) :
  Forall (fun y => f y = false) before →
  f x = true →
  List.filter f (before ++ x :: after) = x :: List.filter f after.
Proof.
  intros Hb Hx. rewrite List.filter_app, (filter_no_match f before Hb); simpl.
  by rewrite Hx.
Qed.

Lemma loose_eq_true (a : option string) (b : string) :
  loose_eq a b = true ↔ a = Some b.
Proof.
  destruct a as [x|]; simpl; [|split; discriminate].
  rewrite String.eqb_eq. split; [by intros ->|by intros [= ->]].
Qed.

Lemma loose_eq_false (a : option string) (b : string) :
  loose_eq a b = false ↔ a ≠ Some b.
Proof.
  rewrite <- loose_eq_true. destruct (loose_eq a b); split; congruence.
Qed.

Lemma methodTypeIs_absent (s : Session) (type method N : string) :
  detail_truthy (contractDetail N s) = false
    ∨ read_abi (contractDetail N s) = None →
  methodTypeIs type method N s = JNull.
Proof.
  unfold methodTypeIs. intros [H|H]; rewrite H; [reflexivity|].
  by destruct (detail_truthy _).
Qed.

Lemma methodTypeIs_no_entry (s : Session) (type method N : string)
    (d : ContractDetail) (items : list AbiItem) :
  contractDetail N s = Found d →
  abi d = Some items →
  Forall (fun item => name item ≠ Some method) items →
  methodTypeIs type method N s = JNull.
Proof.
  intros Hd Ha Hno. unfold methodTypeIs. rewrite Hd; simpl. rewrite Ha.
  rewrite filter_no_match; [reflexivity|].
  eapply Forall_impl; [exact Hno|]. intros item. by rewrite loose_eq_false.
Qed.

Lemma methodTypeIs_first_entry (s : Session) (type method N : string)
    (d : ContractDetail) (before after : list AbiItem) (item : AbiItem) :
  contractDetail N s = Found d →
  abi d = Some (before ++ item :: after) →
  Forall (fun item' => name item' ≠ Some method) before →
  name item = Some method →
  methodTypeIs type method N s =
    js_and (str_val (stateMutability item))
           (JBool (loose_eq (stateMutability item) type)).
Proof.
  intros Hd Ha Hb Hn. unfold methodTypeIs. rewrite Hd; simpl. rewrite Ha.
  rewrite filter_first_match; [reflexivity| |by apply loose_eq_true].
  eapply Forall_impl; [exact Hb|]. intros item'. by rewrite loose_eq_false.
Qed.

(** C1, as the code has it.  [methodTypeIs] returns null when the contract
    or its ABI is absent, and also when no ABI entry is named [method];
    when entries are named [method], the first of them decides: if it
    declares a mutability [m], the result is the boolean [m == type]. *)
Theorem methodTypeIs_result (s : Session) (type method N : string) :
  (detail_truthy (contractDetail N s) = false
     ∨ read_abi (contractDetail N s) = None →
   methodTypeIs type method N s = JNull)
  ∧ (∀ d items,
       contractDetail N s = Found d → abi d = Some items →
       Forall (fun item => name item ≠ Some method) items →
       methodTypeIs type method N s = JNull)
  ∧ (∀ d before item after m,
       contractDetail N s = Found d →
       abi d = Some (before ++ item :: after) →
       Forall (fun item' => name item' ≠ Some method) before →
       name item = Some method →
       stateMutability item = Some m → m ≠ ""%string →
       methodTypeIs type method N s = JBool (String.eqb m type)).
Proof.
  split; [apply methodTypeIs_absent|].
  split; [intros d items; apply methodTypeIs_no_entry|].
  intros d before item after m Hd Ha Hb Hn Hm Hne.
  rewrite (methodTypeIs_first_entry s type method N d before after item Hd Ha Hb Hn).
  rewrite Hm; unfold js_and; simpl.
  destruct (String.eqb m "") eqn:E; [|reflexivity].
  apply String.eqb_eq in E. contradiction.
Qed.

Lemma methodTypeIs_result_witness :
  methodTypeIs "view" "getUser" "Accounts" users_session = JNull
  ∧ methodTypeIs "view" "getUserById" "Users" users_session = JNull
  ∧ methodTypeIs "view" "updateUser" "Users" users_session = JBool false
  ∧ methodTypeIs "nonpayable" "updateUser" "Users" users_session = JBool true.
Proof.
  pose (d := mkDetail (Some "0xABC"%string) (Some users_abi) (Some "Users"%string)).
  assert (Hd : contractDetail "Users" users_session = Found d) by reflexivity.
  split; [|split; [|split]].
  - apply (methodTypeIs_result users_session "view" "getUser" "Accounts").
    left. reflexivity.
  - destruct (methodTypeIs_result users_session "view" "getUserById" "Users")
      as (_ & H & _).
    apply (H d users_abi Hd eq_refl).
    repeat constructor; discriminate.
  - destruct (methodTypeIs_result users_session "view" "updateUser" "Users")
      as (_ & _ & H).
    apply (H d [mkAbiItem (Some "getUser") (Some "view")]
             (mkAbiItem (Some "updateUser") (Some "nonpayable"))
             [mkAbiItem (Some "UserUpdated") None] "nonpayable"%string Hd);
      try reflexivity; [|discriminate].
    repeat constructor; discriminate.
  - destruct (methodTypeIs_result users_session "nonpayable" "updateUser" "Users")
      as (_ & _ & H).
    apply (H d [mkAbiItem (Some "getUser") (Some "view")]
             (mkAbiItem (Some "updateUser") (Some "nonpayable"))
             [mkAbiItem (Some "UserUpdated") None] "nonpayable"%string Hd);
      try reflexivity; [|discriminate].
    repeat constructor; discriminate.
Defined.

(** C1, as stated, fails: with the contract registered and its ABI
    present, a method that no ABI entry names gives null, not false. *)
Lemma methodTypeIs_no_entry_counterexample :
  contractDetail "Users" users_session
    = Found (mkDetail (Some "0xABC"%string) (Some users_abi) (Some "Users"%string))
  ∧ Forall (fun item => name item ≠ Some "getUserById"%string) users_abi
  ∧ methodTypeIs "view" "getUserById" "Users" users_session = JNull
  ∧ methodTypeIs "view" "getUserById" "Users" users_session ≠ JBool false.
Proof.
  split; [reflexivity|]. split; [repeat constructor; discriminate|].
  split; [reflexivity|discriminate].
Qed.

(** A method tagged [view] is read-only and not payable; an entry that
    declares no mutability gives undefined. *)
Example methodIsViewOrPure_getUser :
  methodIsViewOrPure "getUser" "Users" users_session = JBool true
  ∧ methodIsPayable "getUser" "Users" users_session = JBool false
  ∧ methodIsNonPayable "UserUpdated" "Users" users_session = JUndefined.
Proof. repeat split. Qed.

(** ** Read-only invocation *)

Lemma typeof_object (v : JsVal) :
  typeof v = "object"%string ↔
  v = JNull ∨ (∃ items, v = JArr items) ∨ (∃ fields, v = JObj fields).
Proof.
  destruct v; simpl; split; try discriminate; eauto;
    intros [H|[[? H]|[? H]]]; discriminate.
Qed.

(** C5, as the code has it.  For a registered contract, [call] passes no
    argument when [param] is null, the elements of [param] when it is an
    array, and [param] itself as the single argument when it is not of
    type object (a string, a number, a boolean, undefined); it returns what
    the invocation yields. *)
Theorem call_dispatch (s : Session) (method N : string) (options : JsVal)
    (c : Instance) :
  contract N s = Found c →
  call method JNull N options s
    = await (MethodCall (TInstance c) method [] options) s
  ∧ (∀ items, call method (JArr items) N options s
       = await (MethodCall (TInstance c) method items options) s)
  ∧ (∀ v, typeof v ≠ "object"%string →
       call method v N options s
       = await (MethodCall (TInstance c) method [v] options) s).
Proof.
  intros Hc. unfold call, bind, lift; simpl. rewrite Hc; simpl.
  repeat split.
  intros v Hv. destruct v; simpl in *; rewrite ?Hc; try reflexivity;
    exfalso; apply Hv; reflexivity.
Qed.

Lemma call_dispatch_witness :
  call "getUser" JNull "Users" (JObj []) users_session
    = await (MethodCall (TInstance (InstanceId 1)) "getUser" [] (JObj [])) users_session
  ∧ call "getUser" (JArr [JStr "a"; JStr "b"]) "Users" (JObj []) users_session
    = await (MethodCall (TInstance (InstanceId 1)) "getUser"
               [JStr "a"; JStr "b"] (JObj [])) users_session
  ∧ call "getUser" (JStr "x") "Users" (JObj []) users_session
    = await (MethodCall (TInstance (InstanceId 1)) "getUser" [JStr "x"] (JObj []))
        users_session.
Proof.
  destruct (call_dispatch users_session "getUser" "Users" (JObj []) (InstanceId 1))
    as (H0 & Harr & Hother); [reflexivity|].
  split; [exact H0|]. split; [apply Harr|]. apply Hother. discriminate.
Defined.

(** C5, as stated, fails: a keyed object is neither null nor an array, yet
    it is not passed as the single argument; the spread of it raises and
    the contract method is not invoked. *)
Lemma call_keyed_object_counterexample :
  contract "Users" users_session = Found (InstanceId 1)
  ∧ call "getUser" (JObj [("id"%string, JNum 42)]) "Users" (JObj []) users_session
    = Ret (users_session, Throw TypeError)
  ∧ call "getUser" (JObj [("id"%string, JNum 42)]) "Users" (JObj []) users_session
    ≠ await (MethodCall (TInstance (InstanceId 1)) "getUser"
               [JObj [("id"%string, JNum 42)]] (JObj [])) users_session.
Proof.
  split; [reflexivity|]. split; [reflexivity|]. discriminate.
Qed.

(** ** Gas price *)

Lemma getGasPrice_cached (s : Session) (o : Outcome JsVal) :
  gasPrice (defaultOptions s) = GasPricePromise o →
  getGasPrice true s =
    Ret (s, match o with Resolved v => Ok v | Rejected e => Throw (External e) end).
Proof.
  intros H. unfold getGasPrice, bind, get; simpl. rewrite H; simpl.
  by destruct o.
Qed.

Lemma getGasPrice_query (s : Session) (fromCache : bool) :
  connected s = true →
  slot_truthy (gasPrice (defaultOptions s)) && fromCache = false →
  ∃ k, getGasPrice fromCache s = Vis GetGasPrice k
    ∧ ∀ o, k o = Ret (set_gasPrice (GasPricePromise o) s,
                      match o with
                      | Resolved v => Ok v
                      | Rejected e => Throw (External e)
                      end).
Proof.
  with_handle s Hw.
  intros H. unfold getGasPrice, web3_eth, promise, bind, get; simpl.
  rewrite H, Hw; simpl. eexists; split; [reflexivity|].
  intros o; simpl. by destruct o.
Qed.

(** C3 at a connected session with an empty gas-price slot.  The query is
    issued, and whatever comes of it the slot is filled with the promise,
    not with a number.  When the query yields no value the caller gets
    that non-value (undefined stays undefined), when it is rejected the
    caller gets the rejection, and in each case every later
    [getGasPrice(true)] answers from the slot without a live query. *)
Theorem getGasPrice_caches_promise :
  ∃ k, getGasPrice true booted = Vis GetGasPrice k
    ∧ k (Resolved (JNum 7)) =
        Ret (set_gasPrice (GasPricePromise (Resolved (JNum 7))) booted, Ok (JNum 7))
    ∧ k (Resolved JUndefined) =
        Ret (set_gasPrice (GasPricePromise (Resolved JUndefined)) booted,
             Ok JUndefined)
    ∧ k (Resolved JNull) =
        Ret (set_gasPrice (GasPricePromise (Resolved JNull)) booted, Ok JNull)
    ∧ getGasPrice true (set_gasPrice (GasPricePromise (Resolved JNull)) booted) =
        Ret (set_gasPrice (GasPricePromise (Resolved JNull)) booted, Ok JNull)
    ∧ k (Rejected (JStr "timeout")) =
        Ret (set_gasPrice (GasPricePromise (Rejected (JStr "timeout"))) booted,
             Throw (External (JStr "timeout")))
    ∧ getGasPrice true
        (set_gasPrice (GasPricePromise (Rejected (JStr "timeout"))) booted) =
        Ret (set_gasPrice (GasPricePromise (Rejected (JStr "timeout"))) booted,
             Throw (External (JStr "timeout"))).
Proof.
  eexists. split; [reflexivity|]. repeat split.
Qed.

(** ** Transaction fields *)

Lemma run_bind {A B} (env : Oracle) (p : Prog (Session * Result A))
    (f : A → M B) (t t' : list Issued) (s : Session) (a : A)
    (r : Session * Result B) :
  run env p = (t, (s, Ok a)) →
  run env (f a s) = (t', r) →
  run env (prog_bind p f) = (t ++ t', r).
Proof.
  revert t. induction p as [[s0 [a0|e]]|X q k IH]; intros t; simpl.
  - intros [= <- <- <-] ->. reflexivity.
  - discriminate.
  - destruct (run env (k (env X q))) as [t0 r0] eqn:E.
    intros [= <- ->] Hf. by rewrite (IH (env X q) t0 E Hf).
Qed.

Lemma getGasPrice_fresh_run (env : Oracle) (s : Session) (price : JsVal) :
  connected s = true →
  env _ GetGasPrice = Resolved price →
  run env (getGasPrice false s) =
    ([issued GetGasPrice],
     (set_gasPrice (GasPricePromise (Resolved price)) s, Ok price)).
Proof.
  intros Hc He.
  destruct (getGasPrice_query s false Hc) as (k & Hk & Hres);
    [apply andb_false_r|].
  rewrite Hk; simpl. rewrite Hres, He. reflexivity.
Qed.

Lemma getGasLimit_fresh_run (env : Oracle) (s : Session) (b : Block) :
  connected s = true →
  env _ (GetBlock (JStr "latest")) = Resolved (Some b) →
  run env (getGasLimit false s) =
    ([issued (GetBlock (JStr "latest"))],
     (set_gasLimit (block_gasLimit b) s, Ok (block_gasLimit b))).
Proof.
  intros Hc He.
  destruct (getGasLimit_fresh s Hc) as (k & Hk & Hsome & _).
  rewrite Hk; simpl. rewrite He, Hsome. reflexivity.
Qed.

Lemma nonce_run (env : Oracle) (s : Session) (from : JsVal)
    (options : TxOptions) (count : JsVal) :
  connected s = true →
  env _ (GetTransactionCount from "pending") = Resolved count →
  run env ((if truthy (opt_nonce options) then ret (opt_nonce options)
            else run* web3_eth in await (GetTransactionCount from "pending")) s)
  = (nonce_queries from options, (s, Ok (nonce_field options count))).
Proof.
  unfold connected, nonce_queries, nonce_field. intros Hc He.
  destruct (truthy (opt_nonce options)); [reflexivity|].
  unfold web3_eth, bind, get; simpl.
  destruct (web3 s); [|discriminate]. simpl. by rewrite He.
Qed.

(** C2, as the code has it.  On a connected session, whatever gas defaults
    are cached, [getTransactionData] decides each of the two gas fields on
    its own: a gas price given in the options is taken from there, and
    otherwise a live gas-price query is issued and its answer used and
    cached; a gas limit given in the options is taken from there, and
    otherwise the latest block is asked for and its gas limit used and
    cached.  The cached defaults decide nothing: neither the requests nor
    the fields depend on them. *)
Theorem getTransactionData_gas_fields (env : Oracle) (s : Session)
    (from to : JsVal) (options : TxOptions) (count price : JsVal) (b : Block) :
  connected s = true →
  env _ (GetTransactionCount from "pending") = Resolved count →
  env _ GetGasPrice = Resolved price →
  env _ (GetBlock (JStr "latest")) = Resolved (Some b) →
  run env (getTransactionData from to options s) =
    (nonce_queries from options
       ++ (if truthy (opt_gasPrice options) then [] else [issued GetGasPrice])
       ++ (if truthy (opt_gasLimit options) then []
           else [issued (GetBlock (JStr "latest"))]),
     ((if truthy (opt_gasLimit options) then fun s1 => s1
       else set_gasLimit (block_gasLimit b))
        ((if truthy (opt_gasPrice options) then fun s0 => s0
          else set_gasPrice (GasPricePromise (Resolved price))) s),
      Ok (mkTxData from to (nonce_field options count)
            (if truthy (opt_gasPrice options) then opt_gasPrice options
             else price)
            (if truthy (opt_gasLimit options) then opt_gasLimit options
             else block_gasLimit b)
            None None))).
Proof.
  intros Hc Hcount Hprice Hblock.
  pose proof (nonce_run env s from options count Hc Hcount) as Hnonce.
  unfold getTransactionData, bind at 1.
  eapply run_bind; [exact Hnonce|].
  unfold bind at 1.
  destruct (truthy (opt_gasPrice options)) eqn:Hp;
    destruct (truthy (opt_gasLimit options)) eqn:Hl.
  - reflexivity.
  - eapply (run_bind env _ _ [] [_]); [reflexivity|].
    unfold bind at 1.
    eapply (run_bind env _ _ [_] []); [|reflexivity].
    exact (getGasLimit_fresh_run env s b Hc Hblock).
  - eapply (run_bind env _ _ [_] []);
      [exact (getGasPrice_fresh_run env s price Hc Hprice)|].
    reflexivity.
  - eapply (run_bind env _ _ [issued GetGasPrice] [_]);
      [exact (getGasPrice_fresh_run env s price Hc Hprice)|].
    unfold bind at 1.
    eapply (run_bind env _ _ [_] []); [|reflexivity].
    exact (getGasLimit_fresh_run env
             (set_gasPrice (GasPricePromise (Resolved price)) s) b Hc Hblock).
Qed.

Lemma getTransactionData_gas_fields_witness :
  run node (getTransactionData (JStr "0xme") (JStr "0xABC") no_options cached_session)
  = ([issued (GetTransactionCount (JStr "0xme") "pending");
      issued GetGasPrice; issued (GetBlock (JStr "latest"))],
     (set_gasLimit (JNum 200)
        (set_gasPrice (GasPricePromise (Resolved (JNum 7))) cached_session),
      Ok (mkTxData (JStr "0xme") (JStr "0xABC") (JNum 3) (JNum 7) (JNum 200)
            None None)))
  ∧ run node (getTransactionData (JStr "0xme") (JStr "0xABC")
                (mkTxOptions (JNum 9) (JNum 11) JUndefined JUndefined)
                cached_session)
  = ([issued (GetBlock (JStr "latest"))],
     (set_gasLimit (JNum 200) cached_session,
      Ok (mkTxData (JStr "0xme") (JStr "0xABC") (JNum 9) (JNum 11) (JNum 200)
            None None)))
  ∧ run node (getTransactionData (JStr "0xme") (JStr "0xABC")
                (mkTxOptions (JNum 9) JUndefined (JNum 21000) JUndefined)
                cached_session)
  = ([issued GetGasPrice],
     (set_gasPrice (GasPricePromise (Resolved (JNum 7))) cached_session,
      Ok (mkTxData (JStr "0xme") (JStr "0xABC") (JNum 9) (JNum 7) (JNum 21000)
            None None)))
  ∧ run node (getTransactionData (JStr "0xme") (JStr "0xABC")
                (mkTxOptions (JNum 9) (JNum 11) (JNum 21000) JUndefined)
                cached_session)
  = ([], (cached_session,
          Ok (mkTxData (JStr "0xme") (JStr "0xABC") (JNum 9) (JNum 11)
                (JNum 21000) None None))).
Proof.
  split; [|split; [|split]].
  - apply (getTransactionData_gas_fields node cached_session (JStr "0xme")
             (JStr "0xABC") no_options (JNum 3) (JNum 7) (mkBlock 10 (JNum 200)));
      reflexivity.
  - apply (getTransactionData_gas_fields node cached_session (JStr "0xme")
             (JStr "0xABC") (mkTxOptions (JNum 9) (JNum 11) JUndefined JUndefined)
             (JNum 3) (JNum 7) (mkBlock 10 (JNum 200)));
      reflexivity.
  - apply (getTransactionData_gas_fields node cached_session (JStr "0xme")
             (JStr "0xABC") (mkTxOptions (JNum 9) JUndefined (JNum 21000) JUndefined)
             (JNum 3) (JNum 7) (mkBlock 10 (JNum 200)));
      reflexivity.
  - apply (getTransactionData_gas_fields node cached_session (JStr "0xme")
             (JStr "0xABC") (mkTxOptions (JNum 9) (JNum 11) (JNum 21000) JUndefined)
             (JNum 3) (JNum 7) (mkBlock 10 (JNum 200)));
      reflexivity.
Defined.

(** C2, as stated, fails: gas price 5 and gas limit 100 are cached and the
    options ask for nothing, yet both are queried afresh and the
    transaction carries the node's answers 7 and 200. *)
Lemma getTransactionData_cache_counterexample :
  gasLimit (defaultOptions cached_session) = JNum 100
  ∧ getGasPrice true cached_session = Ret (cached_session, Ok (JNum 5))
  ∧ ∃ s' tx,
      run node (getTransactionData (JStr "0xme") (JStr "0xABC") no_options
                  cached_session)
      = ([issued (GetTransactionCount (JStr "0xme") "pending");
          issued GetGasPrice; issued (GetBlock (JStr "latest"))],
         (s', Ok tx))
      ∧ tx_gasPrice tx = JNum 7 ∧ tx_gasPrice tx ≠ JNum 5
      ∧ tx_gasLimit tx = JNum 200 ∧ tx_gasLimit tx ≠ JNum 100.
Proof.
  split; [reflexivity|]. split; [reflexivity|].
  eexists _, _. split; [reflexivity|]. simpl.
  repeat split; discriminate.
Qed.

(** ** Transaction submission *)

(** A name under which nothing was registered and which Object.prototype
    does not define reads as undefined. *)
Lemma contractDetail_unknown (s : Session) (N : string) :
  own (contractDetails s) !! N = None →
  proto (contractDetails s) = None →
  is_object_prototype_name N = false →
  contractDetail N s = Undefined.
Proof.
  intros Ho Hp Hn. unfold contractDetail, dict_get. rewrite Ho, Hp, Hn.
  destruct (String.eqb N "__proto__") eqn:E; [|reflexivity].
  apply String.eqb_eq in E. subst N. discriminate.
Qed.

(** When the read of the details is falsy the submission throws at once:
    no request is issued and the session is the one it started from. *)
Lemma sendTxToSmartContract_not_found (s : Session) (fromAddress fromPrivateKey : JsVal)
    (contractFnc : string) (contractData : list JsVal) (options : TxOptions)
    (N : string) :
  detail_truthy (contractDetail N s) = false →
  sendTxToSmartContract fromAddress fromPrivateKey contractFnc contractData
    options N s
  = Ret (s, Throw (ThrownString not_found_message)).
Proof.
  intros H. unfold sendTxToSmartContract, bind, get; simpl. by rewrite H.
Qed.

(** C7 at the name [constructor] on a connected session on which nothing
    was ever registered.  The read [contractDetails['constructor']] finds
    the member inherited from Object.prototype, the guard lets the
    submission pass, and the first thing that happens is a chain query; run
    against a node, three queries are issued, the gas cache is written, and
    the submission ends in a TypeError, not in the not-found error. *)
Theorem sendTxToSmartContract_inherited_name :
  contractDetails booted = dict_empty
  ∧ contractDetail "constructor" booted = Builtin "constructor"
  ∧ (∃ k, sendTxToSmartContract (JStr "0xme") JNull "updateUser" []
            no_options "constructor" booted
          = Vis (GetTransactionCount (JStr "0xme") "pending") k)
  ∧ run node (sendTxToSmartContract (JStr "0xme") JNull "updateUser" []
                no_options "constructor" booted)
    = ([issued (GetTransactionCount (JStr "0xme") "pending");
        issued GetGasPrice; issued (GetBlock (JStr "latest"))],
       (set_gasLimit (JNum 200)
          (set_gasPrice (GasPricePromise (Resolved (JNum 7))) booted),
        Throw TypeError)).
Proof.
  split; [reflexivity|]. split; [reflexivity|].
  split; [eexists; reflexivity|reflexivity].
Qed.

(** A name that was never registered and that Object.prototype does not
    define: the submission fails as the guard intends. *)
Example sendTxToSmartContract_unregistered :
  run node (sendTxToSmartContract (JStr "0xme") JNull "updateUser" []
              no_options "Accounts" users_session)
  = ([], (users_session, Throw (ThrownString "Contract address not found!"))).
Proof. reflexivity. Qed.

(** ** Callbacks *)

Lemma callback_get_own (cbs : gmap string Callback) (e : string) (cb : Callback) :
  cbs !! e = Some cb → callback_get cbs e = UserHandler cb.
Proof. intros H. unfold callback_get. by rewrite H. Qed.

(** Under a name whose read is undefined, the first registration is kept,
    a second one changes nothing, [emit] invokes the first callback with
    the payload, and before any registration [emit] does nothing. *)
Lemma on_first_registration_wins (s : Session) (e : string)
    (cb1 cb2 : Callback) (data : JsVal) :
  callback_get (callbacks s) e = NoHandler →
  let s1 := set_callbacks (<[e := cb1]> (callbacks s)) s in
  on e cb1 s = Ret (s1, Ok tt)
  ∧ on e cb2 s1 = Ret (s1, Ok tt)
  ∧ callbacks s1 !! e = Some cb1
  ∧ emit e data s1 = await (InvokeCallback cb1 data) s1
  ∧ emit e data s = Ret (s, Ok JUndefined).
Proof.
  intros H s1. subst s1.
  assert (Hl : <[e := cb1]> (callbacks s) !! e = Some cb1)
    by apply lookup_insert_eq.
  pose proof (callback_get_own _ _ _ Hl) as H1.
  split; [|split; [|split; [exact Hl|split]]].
  - unfold on, bind, get; simpl. by rewrite H.
  - unfold on, bind, get; simpl. by rewrite H1.
  - unfold emit, bind, get; simpl. by rewrite H1.
  - unfold emit, bind, get; simpl. by rewrite H.
Qed.

(** The events the class forwards are not members of Object.prototype. *)
Example forwarded_events_not_inherited :
  callback_get ∅ "transactionHash" = NoHandler
  ∧ callback_get ∅ "receipt" = NoHandler
  ∧ callback_get ∅ "error" = NoHandler.
Proof. repeat split. Qed.

(** C4 at the event name [toString] on a fresh session.  The read
    [callbacks['toString']] finds the function inherited from
    Object.prototype: the first registration is dropped like any later
    one, and [emit] calls the inherited function, not the callback. *)
Theorem on_emit_inherited_name :
  callbacks constructor = ∅
  ∧ on "toString" (CallbackId 1) constructor = Ret (constructor, Ok tt)
  ∧ callbacks constructor !! "toString"%string = None
  ∧ emit "toString" (JStr "payload") constructor
    = await (InvokeBuiltin "toString" (JStr "payload")) constructor
  ∧ emit "toString" (JStr "payload") constructor
    ≠ await (InvokeCallback (CallbackId 1) (JStr "payload")) constructor
  ∧ emit "toString" (JStr "payload") constructor
    ≠ Ret (constructor, Ok JUndefined).
Proof.
  split; [reflexivity|]. split; [reflexivity|]. split; [reflexivity|].
  split; [reflexivity|]. split; [|discriminate].
  unfold emit, await, bind, get; simpl. intros H.
  apply (f_equal (fun p : Prog (Session * Result JsVal) =>
                    match p with
                    | Vis (InvokeBuiltin _ _) _ => true
                    | _ => false
                    end)) in H.
  discriminate H.
Qed.

(** * Further properties *)

(** ** What a run leaves of the session *)

Lemma run_vis {A X} (env : Oracle) (q : Request X) (k : Outcome X → Prog A) :
  run env (Vis q k) =
    (issued q :: fst (run env (k (env X q))), snd (run env (k (env X q)))).
Proof. simpl. by destruct (run env (k (env X q))). Qed.

Lemma run_await {X} (env : Oracle) (q : Request X) (s : Session) :
  run env (await q s) = ([issued q], (s, awaited (env X q))).
Proof. unfold await. rewrite run_vis. by destruct (env X q). Qed.

Lemma run_bind_throw {A B} (env : Oracle) (p : Prog (Session * Result A))
    (f : A → M B) (t : list Issued) (s : Session) (e : Error) :
  run env p = (t, (s, Throw e)) →
  run env (prog_bind p f) = (t, (s, Throw e)).
Proof.
  revert t. induction p as [[s0 [a0|e0]]|X q k IH]; intros t; simpl.
  - discriminate.
  - by intros [= <- <- <-].
  - destruct (run env (k (env X q))) as [t0 r0] eqn:E.
    intros [= <- ->]. by rewrite (IH (env X q) t0 E).
Qed.

Section Preservation.
Context (env : Oracle) (Q : Session → Prop).

Lemma final_session_bind {A B} (p : Prog (Session * Result A)) (f : A → M B) :
  Q (final_session (run env p)) →
  (∀ a, preserves env Q (f a)) →
  Q (final_session (run env (prog_bind p f))).
Proof.
  intros Hp Hf. induction p as [[s [a|e]]|X q k IH]; simpl.
  - apply Hf. exact Hp.
  - exact Hp.
  - rewrite run_vis in Hp. specialize (IH (env X q) Hp).
    unfold final_session in *. by destruct (run env (prog_bind _ f)).
Qed.

Lemma preserves_bind {A B} (m : M A) (f : A → M B) :
  preserves env Q m → (∀ a, preserves env Q (f a)) → preserves env Q (bind m f).
Proof. intros Hm Hf s Hs. apply final_session_bind; [by apply Hm|exact Hf]. Qed.

Lemma preserves_ret {A} (a : A) : preserves env Q (ret a).
Proof. by intros s Hs. Qed.

Lemma preserves_throw {A} (e : Error) : preserves env Q (@throw A e).
Proof. by intros s Hs. Qed.

Lemma preserves_get {A} (f : Session → A) : preserves env Q (get f).
Proof. by intros s Hs. Qed.

Lemma preserves_lift {A} (r : Result A) : preserves env Q (lift r).
Proof. by intros s Hs. Qed.

Lemma preserves_await {X} (q : Request X) : preserves env Q (await q).
Proof. intros s Hs. by rewrite run_await. Qed.

Lemma preserves_promise {X} (q : Request X) : preserves env Q (promise q).
Proof. intros s Hs. unfold promise. by rewrite run_vis. Qed.

Lemma preserves_fire (q : Request unit) : preserves env Q (fire q).
Proof. intros s Hs. unfold fire. by rewrite run_vis. Qed.

Lemma preserves_settle {X} (o : Outcome X) : preserves env Q (settle o).
Proof. destruct o; [apply preserves_ret|apply preserves_throw]. Qed.

Lemma preserves_modify (f : Session → Session) :
  (∀ s, Q s → Q (f s)) → preserves env Q (modify f).
Proof. intros Hf s Hs. by apply Hf. Qed.

Lemma preserves_web3_eth : preserves env Q web3_eth.
Proof.
  apply preserves_bind; [apply preserves_get|].
  intros [w|]; [apply preserves_ret|apply preserves_throw].
Qed.

Lemma preserves_reader {A} (f : Session → Result A) :
  preserves env Q (fun s => lift (f s) s).
Proof. by intros s Hs. Qed.
End Preservation.

Create HintDb frame.
#[export] Hint Resolve preserves_ret preserves_throw preserves_get preserves_lift
  preserves_await preserves_promise preserves_fire preserves_settle
  preserves_web3_eth preserves_reader : frame.

(** Splits a method along its binds and branches and closes the leaves
    with the lemmas above. *)
Ltac frame :=
  repeat first
    [ solve [auto with frame]
    | apply preserves_bind; [|intros ?]
    | match goal with
      | |- preserves _ _ (if ?b then _ else _) => destruct b
      | |- preserves _ _ (match ?x with _ => _ end) => destruct x
      end ].

Lemma same_but_gas_refl (s : Session) : same_but_gas s s.
Proof. by repeat split. Qed.

Lemma same_but_gas_set_gasLimit (s0 s : Session) (v : JsVal) :
  same_but_gas s0 s → same_but_gas s0 (set_gasLimit v s).
Proof. intros H. exact H. Qed.

Lemma same_but_gas_set_gasPrice (s0 s : Session) (g : GasPriceSlot) :
  same_but_gas s0 s → same_but_gas s0 (set_gasPrice g s).
Proof. intros H. exact H. Qed.

Section GasFrame.
Context (env : Oracle) (s0 : Session).

Lemma preserves_getGasLimit (fromCache : bool) :
  preserves env (same_but_gas s0) (getGasLimit fromCache).
Proof.
  unfold getGasLimit, getBlock. frame.
  apply preserves_modify. intros s. apply same_but_gas_set_gasLimit.
Qed.

Lemma preserves_getGasPrice (fromCache : bool) :
  preserves env (same_but_gas s0) (getGasPrice fromCache).
Proof.
  unfold getGasPrice, return_slot. frame.
  apply preserves_modify. intros s. apply same_but_gas_set_gasPrice.
Qed.

Lemma preserves_getTransactionData (from to : JsVal) (options : TxOptions) :
  preserves env (same_but_gas s0) (getTransactionData from to options).
Proof.
  unfold getTransactionData.
  pose proof preserves_getGasLimit. pose proof preserves_getGasPrice.
  frame.
Qed.

Lemma preserves_sendTxToSmartContract (fromAddress fromPrivateKey : JsVal)
    (contractFnc : string) (contractData : list JsVal) (options : TxOptions)
    (N : string) :
  preserves env (same_but_gas s0)
    (sendTxToSmartContract fromAddress fromPrivateKey contractFnc contractData
       options N).
Proof.
  unfold sendTxToSmartContract.
  pose proof preserves_getTransactionData.
  frame.
Qed.
End GasFrame.

(** On whatever session and against whatever environment, a transaction
    submission, the construction of the transaction fields and the two gas
    queries write nothing but the cache of gas defaults: the handle, the
    registered contracts and their details, the cached account and the
    callbacks are the ones the method started with. *)
Theorem submission_writes_only_gas_cache (env : Oracle) (s : Session) :
  (∀ fromAddress fromPrivateKey contractFnc contractData options N,
     same_but_gas s
       (final_session
          (run env (sendTxToSmartContract fromAddress fromPrivateKey contractFnc
                      contractData options N s))))
  ∧ (∀ from to options,
       same_but_gas s (final_session (run env (getTransactionData from to options s))))
  ∧ (∀ fromCache, same_but_gas s (final_session (run env (getGasLimit fromCache s))))
  ∧ (∀ fromCache, same_but_gas s (final_session (run env (getGasPrice fromCache s)))).
Proof.
  repeat split; intros.
  all: first [ apply preserves_sendTxToSmartContract
             | apply preserves_getTransactionData
             | apply preserves_getGasLimit
             | apply preserves_getGasPrice ]; apply same_but_gas_refl.
Qed.

(** A read-only invocation and the pass-through queries end in the very
    session they started in, whatever the environment answers. *)
Theorem reads_leave_session (env : Oracle) (s : Session) :
  (∀ method param N options,
     final_session (run env (call method param N options s)) = s)
  ∧ final_session (run env (getNetworkId s)) = s
  ∧ (∀ blockNumber, final_session (run env (getBlock blockNumber s)) = s)
  ∧ final_session (run env (getBlockNumber s)) = s.
Proof.
  assert (Hcall : ∀ method param N options,
            preserves env (eq s) (call method param N options)).
  { intros. unfold call. frame. }
  assert (Hid : preserves env (eq s) getNetworkId)
    by (unfold getNetworkId; frame).
  assert (Hblock : ∀ b, preserves env (eq s) (getBlock b))
    by (intros; unfold getBlock; frame).
  assert (Hnum : preserves env (eq s) getBlockNumber)
    by (unfold getBlockNumber; frame).
  repeat split; intros; symmetry;
    first [apply Hcall | apply Hid | apply Hblock | apply Hnum]; reflexivity.
Qed.

(** ** Before the connection *)

(** On a session that holds no handle (never booted, or the wallet refused
    access), every operation that needs the chain ends in a TypeError at
    once: no request is issued and the session is left as it was.  Cached
    values are the only way around it. *)
Theorem unconnected_operations_raise (s : Session) :
  connected s = false →
  getNetworkId s = Ret (s, Throw TypeError)
  ∧ (∀ blockNumber, getBlock blockNumber s = Ret (s, Throw TypeError))
  ∧ getBlockNumber s = Ret (s, Throw TypeError)
  ∧ getGasLimit false s = Ret (s, Throw TypeError)
  ∧ getGasPrice false s = Ret (s, Throw TypeError)
  ∧ (truthy (gasLimit (defaultOptions s)) = false →
       getGasLimit true s = Ret (s, Throw TypeError))
  ∧ (slot_truthy (gasPrice (defaultOptions s)) = false →
       getGasPrice true s = Ret (s, Throw TypeError))
  ∧ (truthy (userAccount s) = false → getUserAccount s = Ret (s, Throw TypeError))
  ∧ (∀ json N, loadContractFromJson json N s = Ret (s, Throw TypeError))
  ∧ (∀ from to, getTransactionData from to no_options s = Ret (s, Throw TypeError)).
Proof.
  unfold connected. destruct (web3 s) as [w|] eqn:Hw; [discriminate|intros _].
  unfold getNetworkId, getBlock, getBlockNumber, getGasLimit, getGasPrice,
    getUserAccount, loadContractFromJson, getTransactionData, getNetworkId,
    getBlock, web3_eth, bind, get; simpl.
  rewrite !andb_false_r, Hw; simpl.
  repeat split; intros; rewrite ?H; simpl; rewrite ?Hw; reflexivity.
Qed.

Lemma unconnected_operations_raise_witness :
  getNetworkId constructor = Ret (constructor, Throw TypeError)
  ∧ getUserAccount constructor = Ret (constructor, Throw TypeError)
  ∧ loadContractFromJson users_json "Users" constructor
    = Ret (constructor, Throw TypeError).
Proof.
  destruct (unconnected_operations_raise constructor)
    as (Hid & _ & _ & _ & _ & _ & _ & Hacc & Hjson & _); [reflexivity|].
  split; [exact Hid|]. split; [apply Hacc; reflexivity|apply Hjson].
Defined.

(** ** Registration, continued *)

(** When the callable cannot be built (no handle, or the library refuses
    the ABI or the address), [loadContact] throws after the details are
    stored: [contractDetail(N)] already shows the new address and ABI while
    [contracts] still holds what it held. *)
Theorem loadContact_failure_is_partial (env : Oracle) (s : Session)
    (A : string) (B : Abi) (N : string) :
  connected s = false ∨ (∃ e, env _ (NewContract B A) = Rejected e) →
  let r := run env (loadContact A B N s) in
  (∃ e, final_result r = Throw e)
  ∧ contractDetail N (final_session r) = Found (mkDetail (Some A) B (Some N))
  ∧ contracts (final_session r) = contracts s.
Proof.
  intros H r. subst r. unfold contractDetail. rewrite loadContact_details.
  rewrite dict_get_set_eq, loadContact_run. unfold final_result, final_session, connected in *.
  destruct (web3 s) as [w|]; simpl.
  - destruct H as [H|[e He]]; [discriminate|]. rewrite He; simpl. eauto.
  - eauto.
Qed.

Lemma loadContact_failure_is_partial_witness :
  final_result (run node (loadContact "0xDEF" None "Users"
                            (set_web3 None users_session)))
    = Throw TypeError
  ∧ contractDetail "Users"
      (final_session (run node (loadContact "0xDEF" None "Users"
                                  (set_web3 None users_session))))
    = Found (mkDetail (Some "0xDEF"%string) None (Some "Users"%string))
  ∧ contract "Users"
      (final_session (run node (loadContact "0xDEF" None "Users"
                                  (set_web3 None users_session))))
    = Found (InstanceId 1).
Proof.
  destruct (loadContact_failure_is_partial node (set_web3 None users_session)
              "0xDEF" None "Users") as (_ & Hd & Hc); [left; reflexivity|].
  split; [reflexivity|]. split; [exact Hd|].
  unfold contract. rewrite Hc. reflexivity.
Defined.

(** A registration under a name other than [__proto__] touches nothing
    else: the details and the callable of every other name, the handle, the
    gas cache, the cached account and the callbacks stay as they were. *)
Theorem loadContact_other_names (env : Oracle) (s : Session) (A : string)
    (B : Abi) (N N' : string) :
  N ≠ N' → N ≠ "__proto__"%string →
  let s' := final_session (run env (loadContact A B N s)) in
  contractDetail N' s' = contractDetail N' s
  ∧ contract N' s' = contract N' s
  ∧ web3 s' = web3 s
  ∧ defaultOptions s' = defaultOptions s
  ∧ userAccount s' = userAccount s
  ∧ callbacks s' = callbacks s.
Proof.
  intros Hne Hp s'. subst s'. unfold contractDetail, contract.
  rewrite loadContact_details, (dict_get_set_ne _ N N' _ Hne Hp).
  rewrite loadContact_run. unfold final_session.
  destruct (web3 s) as [w|] eqn:Hw; simpl; [|by repeat split].
  destruct (env _ (NewContract B A)); simpl; [|by repeat split].
  by rewrite (dict_get_set_ne _ N N' _ Hne Hp).
Qed.

Lemma loadContact_other_names_witness :
  contractDetail "Users"
    (final_session (run node (loadContact "0xDEF" None "Tokens" users_session)))
  = Found (mkDetail (Some "0xABC"%string) (Some users_abi) (Some "Users"%string)).
Proof.
  destruct (loadContact_other_names node users_session "0xDEF" None
              "Tokens" "Users") as (Hd & _); [discriminate..|].
  rewrite Hd. reflexivity.
Defined.

(** The exception: a registration under [__proto__] becomes the prototype
    of the table, and names that were never registered start to read as
    its fields. *)
Example loadContact_proto_leaks :
  contractDetail "address" booted = Undefined
  ∧ detail_truthy
      (contractDetail "address"
         (final_session (run node (loadContact "0xABC" None "__proto__" booted))))
    = true.
Proof. split; reflexivity. Qed.

(** [bootWeb3] writes the handle and nothing else; registrations, gas
    defaults, the cached account and the callbacks of an earlier connection
    survive a new one.  It ends connected unless the wallet refuses, in
    which case the session is the one it started with. *)
Theorem bootWeb3_keeps_session (env : Oracle) (window : Window) (s : Session) :
  let r := run env (bootWeb3 window s) in
  contracts (final_session r) = contracts s
  ∧ contractDetails (final_session r) = contractDetails s
  ∧ defaultOptions (final_session r) = defaultOptions s
  ∧ userAccount (final_session r) = userAccount s
  ∧ callbacks (final_session r) = callbacks s
  ∧ (final_result r = Ok tt ∧ connected (final_session r) = true
     ∨ window_ethereum window = true
       ∧ (∃ e, env _ RequestAccounts = Rejected e
               ∧ final_result r = Throw (External e))
       ∧ final_session r = s).
Proof.
  intros r. subst r. unfold bootWeb3.
  destruct (window_ethereum window).
  - unfold bind, modify, await, final_session, final_result. simpl.
    destruct (env _ RequestAccounts) as [[]|e]; simpl.
    + repeat split. by left.
    + repeat split. right. eauto.
  - destruct (window_web3 window); simpl; repeat split; by left.
Qed.

(** ** Method introspection, continued *)

(** A boolean answer for one kind means the first entry named [method]
    declares a non-empty mutability [x], and then every kind is answered by
    comparison with [x]. *)
Lemma methodTypeIs_bool (s : Session) (type method N : string) (b : bool) :
  methodTypeIs type method N s = JBool b →
  ∃ x, x ≠ ""%string ∧ ∀ t, methodTypeIs t method N s = JBool (String.eqb x t).
Proof.
  unfold methodTypeIs.
  destruct (detail_truthy (contractDetail N s)); [|discriminate].
  destruct (read_abi (contractDetail N s)) as [items|]; [|discriminate].
  destruct (List.filter _ items) as [|fnc0 rest]; [discriminate|].
  destruct (stateMutability fnc0) as [x|]; [|discriminate].
  unfold js_and; simpl.
  destruct (String.eqb x "") eqn:E; simpl; [discriminate|].
  intros _. exists x. split; [|reflexivity].
  intros ->. discriminate.
Qed.

(** The three convenience predicates exclude one another: when one of
    [methodIsPayable], [methodIsNonPayable], [methodIsViewOrPure] answers
    true for a method, the other two answer false (not null). *)
Theorem mutability_predicates_exclusive (s : Session) (method N : string) :
  (methodIsPayable method N s = JBool true →
     methodIsNonPayable method N s = JBool false
     ∧ methodIsViewOrPure method N s = JBool false)
  ∧ (methodIsNonPayable method N s = JBool true →
       methodIsPayable method N s = JBool false
       ∧ methodIsViewOrPure method N s = JBool false)
  ∧ (methodIsViewOrPure method N s = JBool true →
       methodIsPayable method N s = JBool false
       ∧ methodIsNonPayable method N s = JBool false).
Proof.
  unfold methodIsPayable, methodIsNonPayable, methodIsViewOrPure.
  split; [|split].
  - intros H. destruct (methodTypeIs_bool _ _ _ _ _ H) as (x & _ & Hx).
    rewrite Hx in H. injection H as H. apply String.eqb_eq in H. subst x.
    rewrite !Hx. split; reflexivity.
  - intros H. destruct (methodTypeIs_bool _ _ _ _ _ H) as (x & _ & Hx).
    rewrite Hx in H. injection H as H. apply String.eqb_eq in H. subst x.
    rewrite !Hx. split; reflexivity.
  - intros H.
    assert (Hb : ∃ t b, methodTypeIs t method N s = JBool b).
    { unfold js_or in H.
      destruct (truthy (methodTypeIs "view" method N s)) eqn:E; eauto. }
    destruct Hb as (t & b & Hb).
    destruct (methodTypeIs_bool _ _ _ _ _ Hb) as (x & _ & Hx).
    rewrite !Hx in *. unfold js_or in H; simpl in H.
    destruct (String.eqb x "view") eqn:Ev.
    + apply String.eqb_eq in Ev. subst x. split; reflexivity.
    + injection H as H. apply String.eqb_eq in H. subst x. split; reflexivity.
Qed.

Lemma mutability_predicates_exclusive_witness :
  methodIsPayable "getUser" "Users" users_session = JBool false
  ∧ methodIsNonPayable "getUser" "Users" users_session = JBool false.
Proof.
  destruct (mutability_predicates_exclusive users_session "getUser" "Users")
    as (_ & _ & H).
  apply H. reflexivity.
Defined.

(** For a registered contract whose first entry named [method] declares
    the mutability [m], [methodIsViewOrPure] is the boolean "[m] is view or
    pure"; without contract or ABI, and without an entry of that name, it
    is null. *)
Theorem methodIsViewOrPure_result (s : Session) (method N : string) :
  (detail_truthy (contractDetail N s) = false
     ∨ read_abi (contractDetail N s) = None →
   methodIsViewOrPure method N s = JNull)
  ∧ (∀ d items,
       contractDetail N s = Found d → abi d = Some items →
       Forall (fun item => name item ≠ Some method) items →
       methodIsViewOrPure method N s = JNull)
  ∧ (∀ d before item after m,
       contractDetail N s = Found d →
       abi d = Some (before ++ item :: after) →
       Forall (fun item' => name item' ≠ Some method) before →
       name item = Some method →
       stateMutability item = Some m → m ≠ ""%string →
       methodIsViewOrPure method N s
       = JBool (String.eqb m "view" || String.eqb m "pure")).
Proof.
  unfold methodIsViewOrPure. split; [|split].
  - intros H. by rewrite !(methodTypeIs_absent s _ method N H).
  - intros d items Hd Ha Hno.
    by rewrite !(methodTypeIs_no_entry s _ method N d items Hd Ha Hno).
  - intros d before item after m Hd Ha Hb Hn Hm Hne.
    rewrite !(methodTypeIs_first_entry s _ method N d before after item Hd Ha Hb Hn).
    rewrite Hm. unfold js_and, js_or; simpl.
    destruct (String.eqb m "") eqn:E;
      [apply String.eqb_eq in E; contradiction|]. simpl.
    by destruct (String.eqb m "view").
Qed.

Lemma methodIsViewOrPure_result_witness :
  methodIsViewOrPure "getUser" "Accounts" users_session = JNull
  ∧ methodIsViewOrPure "updateUser" "Users" users_session = JBool false.
Proof.
  pose (d := mkDetail (Some "0xABC"%string) (Some users_abi) (Some "Users"%string)).
  split.
  - apply (methodIsViewOrPure_result users_session "getUser" "Accounts").
    left. reflexivity.
  - destruct (methodIsViewOrPure_result users_session "updateUser" "Users")
      as (_ & _ & H).
    apply (H d [mkAbiItem (Some "getUser") (Some "view")]
             (mkAbiItem (Some "updateUser") (Some "nonpayable"))
             [mkAbiItem (Some "UserUpdated") None] "nonpayable"%string);
      try reflexivity; [|discriminate].
    repeat constructor; discriminate.
Defined.

(** Overloads are shadowed: the answer depends on the first entry named
    [method] alone.  Two ABIs whose first such entry is the same give the
    same answer, whatever precedes it under other names and whatever
    follows it. *)
Theorem methodTypeIs_first_match_decides (s s' : Session)
    (type method N N' : string) (d d' : ContractDetail)
    (before before' after after' : list AbiItem) (item : AbiItem) :
  contractDetail N s = Found d →
  abi d = Some (before ++ item :: after) →
  contractDetail N' s' = Found d' →
  abi d' = Some (before' ++ item :: after') →
  Forall (fun x => name x ≠ Some method) before →
  Forall (fun x => name x ≠ Some method) before' →
  name item = Some method →
  methodTypeIs type method N s = methodTypeIs type method N' s'.
Proof.
  intros Hd Ha Hd' Ha' Hb Hb' Hn.
  rewrite (methodTypeIs_first_entry s type method N d before after item Hd Ha Hb Hn).
  by rewrite (methodTypeIs_first_entry s' type method N' d' before' after' item
                Hd' Ha' Hb' Hn).
Qed.

Lemma methodTypeIs_first_match_decides_witness :
  methodTypeIs "view" "getUser" "Users" users_session
  = methodTypeIs "view" "getUser" "Users"
      (final_session
         (run node (loadContact "0xABC"
                      (Some [mkAbiItem (Some "getUser") (Some "view");
                             mkAbiItem (Some "getUser") (Some "payable")])
                      "Users" booted))).
Proof.
  apply (methodTypeIs_first_match_decides _ _ "view" "getUser" "Users" "Users"
           (mkDetail (Some "0xABC"%string) (Some users_abi) (Some "Users"%string))
           (mkDetail (Some "0xABC"%string)
              (Some [mkAbiItem (Some "getUser") (Some "view");
                     mkAbiItem (Some "getUser") (Some "payable")])
              (Some "Users"%string))
           [] []
           [mkAbiItem (Some "updateUser") (Some "nonpayable");
            mkAbiItem (Some "UserUpdated") None]
           [mkAbiItem (Some "getUser") (Some "payable")]
           (mkAbiItem (Some "getUser") (Some "view")));
    try reflexivity; constructor.
Defined.

(** Introspection answers from the latest registration.  After
    [loadContact(A, B, N)] on any session, [methodTypeIs] for [N] is
    decided by [B] alone: null for every method when [B] is absent or
    names no such method, and the comparison with the declared mutability
    of the first entry of that name otherwise. *)
Theorem loadContact_then_methodTypeIs (env : Oracle) (s : Session)
    (A N type method : string) :
  let after_load B := final_session (run env (loadContact A B N s)) in
  methodTypeIs type method N (after_load None) = JNull
  ∧ (∀ items, Forall (fun item => name item ≠ Some method) items →
       methodTypeIs type method N (after_load (Some items)) = JNull)
  ∧ (∀ before item after m,
       Forall (fun x => name x ≠ Some method) before →
       name item = Some method →
       stateMutability item = Some m → m ≠ ""%string →
       methodTypeIs type method N (after_load (Some (before ++ item :: after)))
       = JBool (String.eqb m type)).
Proof.
  intros after_load.
  assert (Hd : ∀ B, contractDetail N (after_load B)
                    = Found (mkDetail (Some A) B (Some N))).
  { intros B. unfold after_load, contractDetail.
    rewrite loadContact_details. apply dict_get_set_eq. }
  split; [|split].
  - apply methodTypeIs_absent. right. by rewrite Hd.
  - intros items Hno.
    by apply (methodTypeIs_no_entry _ type method N _ items (Hd _)).
  - intros before item after m Hb Hn Hm Hne.
    rewrite (methodTypeIs_first_entry _ type method N _ before after item
               (Hd _) eq_refl Hb Hn).
    rewrite Hm. unfold js_and; simpl.
    destruct (String.eqb m "") eqn:E; [|reflexivity].
    apply String.eqb_eq in E. contradiction.
Qed.

Lemma loadContact_then_methodTypeIs_witness :
  methodTypeIs "view" "getUser" "Users"
    (final_session (run node (loadContact "0xDEF" (Some users_abi) "Users"
                                users_session)))
  = JBool true.
Proof.
  destruct (loadContact_then_methodTypeIs node users_session "0xDEF" "Users"
              "view" "getUser") as (_ & _ & H).
  apply (H [] (mkAbiItem (Some "getUser") (Some "view"))
           [mkAbiItem (Some "updateUser") (Some "nonpayable");
            mkAbiItem (Some "UserUpdated") None] "view"%string);
    try reflexivity; [constructor|discriminate].
Defined.

(** ** Gas defaults, continued *)

Lemma times_getGasLimit_cached (s : Session) (n : nat) :
  truthy (gasLimit (defaultOptions s)) = true →
  times n (getGasLimit true) s
  = Ret (s, Ok (replicate n (gasLimit (defaultOptions s)))).
Proof.
  intros H. induction n as [|n IH]; [reflexivity|].
  simpl. unfold bind at 1. rewrite (getGasLimit_cached s H); simpl.
  unfold bind at 1. rewrite IH. reflexivity.
Qed.

(** One block query serves every later call.  On a connected session, a
    [getGasLimit] that has to ask (bypass requested, or nothing truthy in
    the cache) and receives a block with a non-zero gas limit issues one
    request; any number of [getGasLimit(true)] after it return the same
    value and issue none. *)
Theorem getGasLimit_one_query_serves_later_calls (env : Oracle) (s : Session)
    (fromCache : bool) (b : Block) (n : nat) :
  connected s = true →
  truthy (gasLimit (defaultOptions s)) && fromCache = false →
  env _ (GetBlock (JStr "latest")) = Resolved (Some b) →
  truthy (block_gasLimit b) = true →
  run env ((let* first := getGasLimit fromCache in
            let* later := times n (getGasLimit true) in
            ret (first :: later)) s)
  = ([issued (GetBlock (JStr "latest"))],
     (set_gasLimit (block_gasLimit b) s,
      Ok (replicate (S n) (block_gasLimit b)))).
Proof.
  intros Hc Hcache He Hb.
  assert (Hfirst : run env (getGasLimit fromCache s)
                   = ([issued (GetBlock (JStr "latest"))],
                      (set_gasLimit (block_gasLimit b) s, Ok (block_gasLimit b)))).
  { rewrite <- (getGasLimit_fresh_run env s b Hc He).
    unfold getGasLimit, bind, get; simpl.
    by rewrite Hcache, andb_false_r. }
  unfold bind at 1.
  eapply (run_bind env _ _ [_] []); [exact Hfirst|].
  unfold bind at 1.
  rewrite (times_getGasLimit_cached (set_gasLimit (block_gasLimit b) s) n Hb).
  reflexivity.
Qed.

Lemma getGasLimit_one_query_serves_later_calls_witness :
  run node ((let* first := getGasLimit true in
             let* later := times 2 (getGasLimit true) in
             ret (first :: later)) booted)
  = ([issued (GetBlock (JStr "latest"))],
     (set_gasLimit (JNum 200) booted, Ok [JNum 200; JNum 200; JNum 200])).
Proof.
  apply (getGasLimit_one_query_serves_later_calls node booted true
           (mkBlock 10 (JNum 200)) 2); reflexivity.
Defined.

(** The first gas-price query is the last.  On a connected session, a
    [getGasPrice] that has to ask issues one request and stores its promise,
    however the request ends; [getGasPrice(true)] afterwards issues nothing
    and ends exactly as that call ended, with the same price or the same
    rejection. *)
Theorem getGasPrice_first_query_is_final (env : Oracle) (s : Session)
    (fromCache : bool) :
  connected s = true →
  slot_truthy (gasPrice (defaultOptions s)) && fromCache = false →
  let r := run env (getGasPrice fromCache s) in
  trace r = [issued GetGasPrice]
  ∧ final_session r = set_gasPrice (GasPricePromise (env _ GetGasPrice)) s
  ∧ final_result r = awaited (env _ GetGasPrice)
  ∧ getGasPrice true (final_session r) = Ret (final_session r, final_result r).
Proof.
  intros Hc Hslot r. subst r.
  destruct (getGasPrice_query s fromCache Hc Hslot) as (k & Hk & Hres).
  rewrite Hk, run_vis, Hres. unfold trace, final_session, final_result; simpl.
  repeat split.
  rewrite (getGasPrice_cached _ (env _ GetGasPrice)) by reflexivity.
  reflexivity.
Qed.

Lemma getGasPrice_first_query_is_final_witness :
  trace (run node (getGasPrice true booted)) = [issued GetGasPrice]
  ∧ getGasPrice true (final_session (run node (getGasPrice true booted)))
    = Ret (set_gasPrice (GasPricePromise (Resolved (JNum 7))) booted, Ok (JNum 7)).
Proof.
  destruct (getGasPrice_first_query_is_final node booted true)
    as (Ht & _ & _ & Hlater); [reflexivity..|].
  split; [exact Ht|exact Hlater].
Defined.

(** A rejected query is thrown to the caller as it is, and the queries
    that await their answer store nothing of it: after a rejection the
    session of [getGasLimit], [getUserAccount], [getNetworkId], [getBlock]
    and [getBlockNumber] is the one before the call, so that the next call
    asks again. *)
Theorem rejected_query_leaves_session (env : Oracle) (s : Session) (e : JsVal) :
  connected s = true →
  (∀ fromCache,
     truthy (gasLimit (defaultOptions s)) && fromCache = false →
     env _ (GetBlock (JStr "latest")) = Rejected e →
     run env (getGasLimit fromCache s)
     = ([issued (GetBlock (JStr "latest"))], (s, Throw (External e))))
  ∧ (truthy (userAccount s) = false →
     env _ GetAccounts = Rejected e →
     run env (getUserAccount s) = ([issued GetAccounts], (s, Throw (External e))))
  ∧ (env _ NetGetId = Rejected e →
     run env (getNetworkId s) = ([issued NetGetId], (s, Throw (External e))))
  ∧ (∀ blockNumber,
       env _ (GetBlock blockNumber) = Rejected e →
       run env (getBlock blockNumber s)
       = ([issued (GetBlock blockNumber)], (s, Throw (External e))))
  ∧ (env _ GetBlockNumber = Rejected e →
     run env (getBlockNumber s) = ([issued GetBlockNumber], (s, Throw (External e)))).
Proof.
  unfold connected. destruct (web3 s) as [w|] eqn:Hw; [intros _|discriminate].
  unfold getGasLimit, getUserAccount, getNetworkId, getBlockNumber, getBlock,
    web3_eth, bind, get; simpl. rewrite Hw; simpl.
  repeat split; intros; rewrite ?H, ?H0, ?H1; simpl; rewrite ?Hw; simpl;
    rewrite ?H, ?H0, ?H1; reflexivity.
Qed.

Lemma rejected_query_leaves_session_witness :
  run (fun X q =>
         match q in Request X return Outcome X with
         | GetAccounts => Rejected (JStr "locked")
         | q' => node _ q'
         end)
      (getUserAccount booted)
  = ([issued GetAccounts], (booted, Throw (External (JStr "locked")))).
Proof.
  destruct (rejected_query_leaves_session
              (fun X q =>
                 match q in Request X return Outcome X with
                 | GetAccounts => Rejected (JStr "locked")
                 | q' => node _ q'
                 end)
              booted (JStr "locked")) as (_ & H & _); [reflexivity|].
  apply H; reflexivity.
Defined.

(** ** Transaction fields, continued *)

(** When a query of [getTransactionData] is rejected, the later fields are
    not asked for and the rejection is thrown.  A rejected nonce query
    leaves the session as it was; a rejected gas-price query leaves its
    rejected promise in the gas-price slot, and the latest block is not
    asked for. *)
Theorem getTransactionData_stops_at_rejection (env : Oracle) (s : Session)
    (from to : JsVal) (options : TxOptions) (e : JsVal) :
  connected s = true →
  (truthy (opt_nonce options) = false →
   env _ (GetTransactionCount from "pending") = Rejected e →
   run env (getTransactionData from to options s)
   = ([issued (GetTransactionCount from "pending")], (s, Throw (External e))))
  ∧ (∀ count,
       env _ (GetTransactionCount from "pending") = Resolved count →
       truthy (opt_gasPrice options) = false →
       env _ GetGasPrice = Rejected e →
       run env (getTransactionData from to options s)
       = (nonce_queries from options ++ [issued GetGasPrice],
          (set_gasPrice (GasPricePromise (Rejected e)) s, Throw (External e)))).
Proof.
  intros Hc. split.
  - intros Hn He. unfold getTransactionData, bind at 1. rewrite Hn.
    apply run_bind_throw.
    unfold connected in Hc. unfold web3_eth, bind, get; simpl.
    destruct (web3 s); [|discriminate]. simpl. by rewrite He.
  - intros count Hcount Hp He. unfold getTransactionData, bind at 1.
    eapply run_bind; [exact (nonce_run env s from options count Hc Hcount)|].
    unfold bind at 1. rewrite Hp. apply run_bind_throw.
    destruct (getGasPrice_query s false Hc) as (k & Hk & Hres);
      [apply andb_false_r|].
    rewrite Hk, run_vis, Hres, He. reflexivity.
Qed.

Lemma getTransactionData_stops_at_rejection_witness :
  run (fun X q =>
         match q in Request X return Outcome X with
         | GetGasPrice => Rejected (JStr "timeout")
         | q' => node _ q'
         end)
      (getTransactionData (JStr "0xme") (JStr "0xABC") no_options booted)
  = ([issued (GetTransactionCount (JStr "0xme") "pending"); issued GetGasPrice],
     (set_gasPrice (GasPricePromise (Rejected (JStr "timeout"))) booted,
      Throw (External (JStr "timeout")))).
Proof.
  destruct (getTransactionData_stops_at_rejection
              (fun X q =>
                 match q in Request X return Outcome X with
                 | GetGasPrice => Rejected (JStr "timeout")
                 | q' => node _ q'
                 end)
              booted (JStr "0xme") (JStr "0xABC") no_options (JStr "timeout"))
    as (_ & H); [reflexivity|].
  apply (H (JNum 3)); reflexivity.
Defined.

(** ** Transaction submission, continued *)

Lemma getTransactionData_keeps_registry (env : Oracle) (s s' : Session)
    (from to : JsVal) (options : TxOptions) (t : list Issued)
    (r : Result TxData) :
  run env (getTransactionData from to options s) = (t, (s', r)) →
  same_but_gas s s'.
Proof.
  intros H.
  pose proof (preserves_getTransactionData env s from to options s
                (same_but_gas_refl s)) as Hp.
  by rewrite H in Hp.
Qed.

(** The value field of a submission: carried only when truthy. *)
Lemma with_value_fields (options : TxOptions) (tx : TxData) :
  tx_value (if truthy (opt_value options)
            then with_value (opt_value options) tx else tx)
  = if truthy (opt_value options) then Some (opt_value options) else tx_value tx.
Proof. by destruct (truthy (opt_value options)). Qed.

(** The provider-signed path.  For a registered contract and no private
    key, once the transaction fields are built the submission hands one
    request to the library: the contract method built from the arguments
    and sent with the fields (the contract address as destination, a truthy
    [options.value] as value).  When building the method or starting the
    send raises, that failure is thrown; otherwise the method returns.
    Nothing is encoded, signed or broadcast by the class on this path. *)
Theorem sendTxToSmartContract_provider_signed (env : Oracle) (s s' : Session)
    (fromAddress fromPrivateKey : JsVal) (contractFnc : string)
    (contractData : list JsVal) (options : TxOptions) (N a : string)
    (d : ContractDetail) (c : Instance) (t : list Issued) (tx : TxData) :
  contractDetail N s = Found d →
  address d = Some a →
  contract N s = Found c →
  truthy fromPrivateKey = false →
  run env (getTransactionData fromAddress (JStr a) options s) = (t, (s', Ok tx)) →
  let tx1 := if truthy (opt_value options)
             then with_value (opt_value options) tx else tx in
  run env (sendTxToSmartContract fromAddress fromPrivateKey contractFnc
             contractData options N s)
  = (t ++ [issued (MethodSend (TInstance c) contractFnc contractData tx1)],
     (s', awaited (env _ (MethodSend (TInstance c) contractFnc contractData tx1)))).
Proof.
  intros Hd Ha Hc Hkey Htx tx1. subst tx1.
  destruct (getTransactionData_keeps_registry _ _ _ _ _ _ _ _ Htx)
    as (_ & Hcs & _).
  unfold sendTxToSmartContract, bind at 1, get; simpl.
  rewrite Hd; simpl. unfold bind at 1; simpl. rewrite Hd; simpl. rewrite Ha.
  unfold bind at 1. eapply run_bind; [exact Htx|].
  rewrite Hkey. unfold bind, lift. unfold contract in *.
  rewrite Hcs, Hc. cbn [method_target prog_bind]. apply run_await.
Qed.

Lemma sendTxToSmartContract_provider_signed_witness :
  run node (sendTxToSmartContract (JStr "0xme") JNull "updateUser" [JStr "John"]
              (mkTxOptions (JNum 9) (JNum 11) (JNum 21000) (JNum 5))
              "Users" users_session)
  = ([issued (MethodSend (TInstance (InstanceId 1)) "updateUser" [JStr "John"]
                (mkTxData (JStr "0xme") (JStr "0xABC") (JNum 9) (JNum 11)
                   (JNum 21000) (Some (JNum 5)) None))],
     (users_session, Ok tt)).
Proof.
  apply (sendTxToSmartContract_provider_signed node users_session users_session
           (JStr "0xme") JNull "updateUser" [JStr "John"]
           (mkTxOptions (JNum 9) (JNum 11) (JNum 21000) (JNum 5)) "Users" "0xABC"
           (mkDetail (Some "0xABC"%string) (Some users_abi) (Some "Users"%string))
           (InstanceId 1) []
           (mkTxData (JStr "0xme") (JStr "0xABC") (JNum 9) (JNum 11) (JNum 21000)
              None None));
    reflexivity.
Defined.

(** A method the contract does not have: the provider-signed submission
    throws what the library raised, after the transaction fields were
    built. *)
Example sendTxToSmartContract_unknown_method :
  run (fun X q =>
         match q in Request X return Outcome X with
         | MethodSend _ _ _ _ => Rejected (JStr "not a function")
         | q' => node _ q'
         end)
      (sendTxToSmartContract (JStr "0xme") JNull "noSuchMethod" []
         (mkTxOptions (JNum 9) (JNum 11) (JNum 21000) JUndefined)
         "Users" users_session)
  = ([issued (MethodSend (TInstance (InstanceId 1)) "noSuchMethod" []
                (mkTxData (JStr "0xme") (JStr "0xABC") (JNum 9) (JNum 11)
                   (JNum 21000) None None))],
     (users_session, Throw (External (JStr "not a function")))).
Proof. reflexivity. Qed.

(** The self-signed path.  For a registered contract on a connected
    session and a private key, once the transaction fields are built the
    call data are encoded and attached (when truthy), and the transaction
    is signed with the key; only a transaction that was signed is
    broadcast, as the raw transaction the signature gave.  When signing
    fails, its failure is thrown and nothing is broadcast.  The contract
    method is never sent through the provider on this path. *)
Theorem sendTxToSmartContract_self_signed (env : Oracle) (s s' : Session)
    (fromAddress fromPrivateKey : JsVal) (contractFnc : string)
    (contractData : list JsVal) (options : TxOptions) (N a : string)
    (d : ContractDetail) (c : Instance) (t : list Issued) (tx : TxData)
    (data : JsVal) :
  connected s = true →
  contractDetail N s = Found d →
  address d = Some a →
  contract N s = Found c →
  truthy fromPrivateKey = true →
  run env (getTransactionData fromAddress (JStr a) options s) = (t, (s', Ok tx)) →
  env _ (EncodeABI (TInstance c) contractFnc contractData) = Resolved data →
  let tx1 := if truthy (opt_value options)
             then with_value (opt_value options) tx else tx in
  let tx2 := if truthy data then with_data data tx1 else tx1 in
  run env (sendTxToSmartContract fromAddress fromPrivateKey contractFnc
             contractData options N s)
  = match env _ (SignTransaction tx2 fromPrivateKey) with
    | Resolved rawTransaction =>
        (t ++ [issued (EncodeABI (TInstance c) contractFnc contractData);
               issued (SignTransaction tx2 fromPrivateKey);
               issued (SendSignedTransaction rawTransaction)],
         (s', Ok tt))
    | Rejected e =>
        (t ++ [issued (EncodeABI (TInstance c) contractFnc contractData);
               issued (SignTransaction tx2 fromPrivateKey)],
         (s', Throw (External e)))
    end.
Proof.
  intros Hconn Hd Ha Hc Hkey Htx Henc tx1 tx2. subst tx1 tx2.
  destruct (getTransactionData_keeps_registry _ _ _ _ _ _ _ _ Htx)
    as (Hw & Hcs & _).
  unfold connected in Hconn. rewrite <- Hw in Hconn.
  destruct (web3 s') as [w|] eqn:Hw'; [|discriminate].
  unfold sendTxToSmartContract, bind at 1, get; simpl.
  rewrite Hd; simpl. unfold bind at 1; simpl. rewrite Hd; simpl. rewrite Ha.
  unfold bind at 1.
  destruct (env _ (SignTransaction _ fromPrivateKey)) as [raw|e] eqn:Hsign;
    (eapply run_bind; [exact Htx|]);
    rewrite Hkey; unfold bind, lift, fire, await, web3_eth, get;
    unfold contract in *; rewrite Hcs, Hc; simpl;
    rewrite Henc; simpl; unfold bind; simpl; rewrite Hw'; simpl;
    rewrite Hsign; simpl; unfold bind; simpl; rewrite ?Hw'; reflexivity.
Qed.

Lemma sendTxToSmartContract_self_signed_witness :
  run node (sendTxToSmartContract (JStr "0xme") (JStr "3eadd2") "updateUser"
              [JStr "John"]
              (mkTxOptions (JNum 9) (JNum 11) (JNum 21000) JUndefined)
              "Users" users_session)
  = ([issued (EncodeABI (TInstance (InstanceId 1)) "updateUser" [JStr "John"]);
      issued (SignTransaction
                (mkTxData (JStr "0xme") (JStr "0xABC") (JNum 9) (JNum 11)
                   (JNum 21000) None (Some (JStr "0xdata")))
                (JStr "3eadd2"));
      issued (SendSignedTransaction (JStr "0xraw"))],
     (users_session, Ok tt)).
Proof.
  apply (sendTxToSmartContract_self_signed node users_session users_session
           (JStr "0xme") (JStr "3eadd2") "updateUser" [JStr "John"]
           (mkTxOptions (JNum 9) (JNum 11) (JNum 21000) JUndefined) "Users" "0xABC"
           (mkDetail (Some "0xABC"%string) (Some users_abi) (Some "Users"%string))
           (InstanceId 1) []
           (mkTxData (JStr "0xme") (JStr "0xABC") (JNum 9) (JNum 11) (JNum 21000)
              None None)
           (JStr "0xdata"));
    reflexivity.
Defined.

(** ** Errors *)

Section Errors.
Context (env : Oracle) (R : Error → Prop).

Lemma final_result_bind {A B} (p : Prog (Session * Result A)) (f : A → M B) :
  (∀ e, final_result (run env p) = Throw e → R e) →
  (∀ a, throws_only env R (f a)) →
  ∀ e, final_result (run env (prog_bind p f)) = Throw e → R e.
Proof.
  intros Hp Hf. induction p as [[s [a|e0]]|X q k IH]; simpl.
  - apply Hf.
  - intros e [= <-]. by apply Hp.
  - rewrite run_vis in Hp. specialize (IH (env X q) Hp).
    unfold final_result in *. by destruct (run env (prog_bind _ f)).
Qed.

Lemma throws_only_bind {A B} (m : M A) (f : A → M B) :
  throws_only env R m → (∀ a, throws_only env R (f a)) →
  throws_only env R (bind m f).
Proof. intros Hm Hf s. apply final_result_bind; [apply Hm|exact Hf]. Qed.

Lemma throws_only_ret {A} (a : A) : throws_only env R (ret a).
Proof. intros s e. discriminate. Qed.

Lemma throws_only_get {A} (f : Session → A) : throws_only env R (get f).
Proof. intros s e. discriminate. Qed.

Lemma throws_only_modify (f : Session → Session) : throws_only env R (modify f).
Proof. intros s e. discriminate. Qed.

Lemma throws_only_throw {A} (e : Error) : R e → throws_only env R (@throw A e).
Proof. intros He s e'. by intros [= <-]. Qed.

Lemma throws_only_await {X} (q : Request X) :
  (∀ reason, R (External reason)) → throws_only env R (await q).
Proof.
  intros HR s e. rewrite run_await. unfold final_result; simpl.
  destruct (env X q); simpl; [discriminate|]. by intros [= <-].
Qed.

Lemma throws_only_promise {X} (q : Request X) : throws_only env R (promise q).
Proof. intros s e. unfold promise. rewrite run_vis. discriminate. Qed.

Lemma throws_only_fire (q : Request unit) : throws_only env R (fire q).
Proof. intros s e. unfold fire. rewrite run_vis. discriminate. Qed.

Lemma throws_only_settle {X} (o : Outcome X) :
  (∀ reason, R (External reason)) → throws_only env R (settle o).
Proof.
  intros HR. destruct o; [apply throws_only_ret|by apply throws_only_throw].
Qed.

Lemma throws_only_web3_eth : R TypeError → throws_only env R web3_eth.
Proof.
  intros HR. apply throws_only_bind; [apply throws_only_get|].
  intros [w|]; [apply throws_only_ret|by apply throws_only_throw].
Qed.

Lemma throws_only_target (N : string) :
  R TypeError →
  throws_only env R (fun s => lift (method_target (contract N s)) s).
Proof.
  intros HR s e. unfold lift, final_result; simpl.
  destruct (contract N s); simpl; try discriminate; by intros [= <-].
Qed.

Lemma throws_only_spread (v : JsVal) :
  R TypeError → throws_only env R (lift (spread v)).
Proof.
  intros HR s e. unfold lift, final_result; simpl.
  destruct v; simpl; try discriminate; by intros [= <-].
Qed.
End Errors.

Lemma engine_TypeError : engine_or_external TypeError.
Proof. by left. Qed.

Lemma engine_External (reason : JsVal) : engine_or_external (External reason).
Proof. right. by exists reason. Qed.

Create HintDb errors.
#[export] Hint Resolve throws_only_ret throws_only_get throws_only_modify
  throws_only_throw throws_only_await throws_only_promise throws_only_fire
  throws_only_settle throws_only_web3_eth throws_only_target throws_only_spread
  engine_TypeError engine_External : errors.

(** Splits a method along its binds and branches and closes the leaves
    with the lemmas above. *)
Ltac errors :=
  repeat first
    [ solve [auto with errors]
    | apply throws_only_bind; [|intros ?]
    | match goal with
      | |- throws_only _ _ (if ?b then _ else _) => destruct b
      | |- throws_only _ _ (match ?x with _ => _ end) => destruct x
      end ].

Section EngineErrors.
Context (env : Oracle).

Lemma errors_getGasLimit (fromCache : bool) :
  throws_only env engine_or_external (getGasLimit fromCache).
Proof. unfold getGasLimit, getBlock. errors. Qed.

Lemma errors_getGasPrice (fromCache : bool) :
  throws_only env engine_or_external (getGasPrice fromCache).
Proof. unfold getGasPrice, return_slot. errors. Qed.

Lemma errors_getTransactionData (from to : JsVal) (options : TxOptions) :
  throws_only env engine_or_external (getTransactionData from to options).
Proof.
  unfold getTransactionData.
  pose proof errors_getGasLimit. pose proof errors_getGasPrice. errors.
Qed.

Lemma errors_loadContact (A : string) (B : Abi) (N : string) :
  throws_only env engine_or_external (loadContact A B N).
Proof. unfold loadContact. errors. Qed.
End EngineErrors.

(** The errors of the class.  Whatever the environment answers, a method
    ends without error, in a TypeError of the engine, in a failure handed
    up from web3, the provider or a callback, or in one of the two strings
    the class throws itself: the not-found message, thrown by
    [sendTxToSmartContract] only, and the network-mismatch message, thrown
    by [loadContractFromJson] only.  [on] never fails. *)
Theorem error_taxonomy (env : Oracle) :
  (∀ method param N options,
     throws_only env engine_or_external (call method param N options))
  ∧ throws_only env engine_or_external getNetworkId
  ∧ (∀ blockNumber, throws_only env engine_or_external (getBlock blockNumber))
  ∧ throws_only env engine_or_external getBlockNumber
  ∧ (∀ fromCache, throws_only env engine_or_external (getGasLimit fromCache))
  ∧ (∀ fromCache, throws_only env engine_or_external (getGasPrice fromCache))
  ∧ throws_only env engine_or_external getUserAccount
  ∧ (∀ from to options,
       throws_only env engine_or_external (getTransactionData from to options))
  ∧ (∀ A B N, throws_only env engine_or_external (loadContact A B N))
  ∧ (∀ window, throws_only env engine_or_external (bootWeb3 window))
  ∧ (∀ eventName data, throws_only env engine_or_external (emit eventName data))
  ∧ (∀ eventName callback, throws_only env (fun _ => False) (on eventName callback))
  ∧ (∀ fromAddress fromPrivateKey contractFnc contractData options N,
       throws_only env
         (fun e => engine_or_external e ∨ e = ThrownString not_found_message)
         (sendTxToSmartContract fromAddress fromPrivateKey contractFnc
            contractData options N))
  ∧ (∀ json N,
       throws_only env
         (fun e => engine_or_external e
                   ∨ ∃ netId, networks json !! netId = None
                              ∧ e = ThrownString (network_mismatch_message netId))
         (loadContractFromJson json N)).
Proof.
  repeat split; intros.
  - unfold call. errors.
  - unfold getNetworkId. errors.
  - unfold getBlock. errors.
  - unfold getBlockNumber. errors.
  - apply errors_getGasLimit.
  - apply errors_getGasPrice.
  - unfold getUserAccount. errors.
  - apply errors_getTransactionData.
  - apply errors_loadContact.
  - unfold bootWeb3. errors.
  - unfold emit. errors.
  - unfold on. errors.
  - unfold sendTxToSmartContract.
    assert (Hweak : ∀ A (m : M A), throws_only env engine_or_external m →
              throws_only env
                (fun e => engine_or_external e ∨ e = ThrownString not_found_message) m)
      by (intros A m Hm s e He; left; exact (Hm s e He)).
    pose proof (fun f t o => Hweak _ _ (errors_getTransactionData env f t o)).
    assert (engine_or_external TypeError
            ∨ TypeError = ThrownString not_found_message) by (left; by left).
    assert (∀ reason, engine_or_external (External reason)
                      ∨ External reason = ThrownString not_found_message)
      by (intros; left; apply engine_External).
    errors.
  - unfold loadContractFromJson, getNetworkId.
    apply throws_only_bind.
    + assert (engine_or_external TypeError
              ∨ ∃ netId, networks json !! netId = None
                         ∧ TypeError = ThrownString (network_mismatch_message netId))
        by (left; by left).
      assert (∀ reason, engine_or_external (External reason)
                ∨ ∃ netId, networks json !! netId = None
                           ∧ External reason
                             = ThrownString (network_mismatch_message netId))
        by (intros; left; apply engine_External).
      errors.
    + intros netId. destruct (networks json !! netId) as [entry|] eqn:Hn.
      * intros s e He. left. exact (errors_loadContact env _ _ _ s e He).
      * apply throws_only_throw. right. by exists netId.
Qed.

(** On a details table that still has its default prototype, a name reads
    as falsy exactly when it was never registered and Object.prototype does
    not define it. *)
Lemma detail_truthy_default_proto (s : Session) (N : string) :
  proto (contractDetails s) = None →
  detail_truthy (contractDetail N s) = false
  ↔ own (contractDetails s) !! N = None ∧ is_object_prototype_name N = false.
Proof.
  intros Hp. unfold contractDetail, dict_get. rewrite Hp.
  destruct (String.eqb N "__proto__") eqn:E.
  - apply String.eqb_eq in E. subst N. simpl. split; [discriminate|].
    intros [_ H]. discriminate.
  - destruct (own (contractDetails s) !! N) as [d|]; simpl.
    + split; [discriminate|]. intros [H _]. discriminate.
    + destruct (is_object_prototype_name N); simpl;
        split; try discriminate; try done. intros [_ H]. discriminate.
Qed.

(** When the not-found error is thrown.  On a session where nothing was
    registered under [__proto__], a submission ends in the not-found
    message exactly when its contract name was never registered and is not
    the name of a member of Object.prototype; it then has issued no
    request and left the session as it was. *)
Theorem sendTxToSmartContract_not_found_iff (env : Oracle) (s : Session)
    (fromAddress fromPrivateKey : JsVal) (contractFnc : string)
    (contractData : list JsVal) (options : TxOptions) (N : string) :
  proto (contractDetails s) = None →
  let r := run env (sendTxToSmartContract fromAddress fromPrivateKey contractFnc
                      contractData options N s) in
  (final_result r = Throw (ThrownString not_found_message)
     ↔ own (contractDetails s) !! N = None ∧ is_object_prototype_name N = false)
  ∧ (final_result r = Throw (ThrownString not_found_message) →
       trace r = [] ∧ final_session r = s).
Proof.
  intros Hp r.
  assert (Hiff : final_result r = Throw (ThrownString not_found_message)
                 ↔ detail_truthy (contractDetail N s) = false).
  { subst r. split.
    - intros H. destruct (detail_truthy (contractDetail N s)) eqn:E; [|reflexivity].
      exfalso.
      assert (engine_or_external (ThrownString not_found_message))
        as [Hx|[reason Hx]]; [|discriminate..].
      revert H. unfold sendTxToSmartContract.
      unfold bind at 1, get at 1. cbn [prog_bind]. rewrite E. cbn [negb].
      unfold bind at 1, get at 1. cbn [prog_bind].
      apply throws_only_bind; [apply errors_getTransactionData|].
      intros tx. errors.
    - intros H. by rewrite sendTxToSmartContract_not_found. }
  split.
  - rewrite Hiff. by apply detail_truthy_default_proto.
  - intros H. apply Hiff in H. subst r.
    by rewrite sendTxToSmartContract_not_found.
Qed.

Lemma sendTxToSmartContract_not_found_iff_witness :
  final_result (run node (sendTxToSmartContract (JStr "0xme") JNull "updateUser" []
                            no_options "Accounts" users_session))
  = Throw (ThrownString not_found_message).
Proof.
  destruct (sendTxToSmartContract_not_found_iff node users_session (JStr "0xme")
              JNull "updateUser" [] no_options "Accounts") as [[_ H] _];
    [reflexivity|].
  apply H. split; reflexivity.
Defined.

(** ** Read-only invocation, continued *)

(** There is no not-found error in [call]: against a name under which no
    callable is stored (on a table that still has its default prototype),
    whatever the parameter, the call ends in a TypeError of the engine and
    nothing is invoked. *)
Theorem call_unregistered (s : Session) (method : string) (param : JsVal)
    (N : string) (options : JsVal) :
  own (contracts s) !! N = None →
  proto (contracts s) = None →
  call method param N options s = Ret (s, Throw TypeError).
Proof.
  intros Ho Hp.
  assert (Ht : method_target (contract N s) = Throw TypeError).
  { unfold contract, dict_get. rewrite Ho, Hp.
    destruct (String.eqb N "__proto__"); [reflexivity|].
    by destruct (is_object_prototype_name N). }
  unfold call, bind, lift.
  destruct (is_null param); [by rewrite Ht|].
  destruct (String.eqb (typeof param) "object"); by rewrite Ht.
Qed.

Lemma call_unregistered_witness :
  call "getUser" (JArr [JStr "341"]) "Accounts" (JObj []) users_session
  = Ret (users_session, Throw TypeError).
Proof.
  apply (call_unregistered users_session "getUser" (JArr [JStr "341"]) "Accounts"
           (JObj [])); reflexivity.
Defined.

(** ** Callbacks, continued *)

Lemma on_step (s : Session) (e' : string) (cb' : Callback) :
  ∃ s1, on e' cb' s = Ret (s1, Ok tt)
    ∧ (∀ e cb, callbacks s !! e = Some cb → callbacks s1 !! e = Some cb)
    ∧ (∀ e, callback_get (callbacks s) e = NoHandler →
         if String.eqb e' e then callbacks s1 !! e = Some cb'
         else callback_get (callbacks s1) e = NoHandler).
Proof.
  unfold on, bind, get; simpl.
  destruct (callback_get (callbacks s) e') eqn:He'; simpl.
  - eexists. split; [reflexivity|]. simpl. split.
    + intros e cb Hcb. rewrite lookup_insert_ne; [exact Hcb|].
      intros ->. unfold callback_get in He'. by rewrite Hcb in He'.
    + intros e He. destruct (String.eqb e' e) eqn:E.
      * apply String.eqb_eq in E. subst e'. apply lookup_insert_eq.
      * apply String.eqb_neq in E. unfold callback_get in *.
        by rewrite lookup_insert_ne.
  - exists s. split; [reflexivity|]. split; [done|].
    intros e He. destruct (String.eqb e' e) eqn:E; [|exact He].
    apply String.eqb_eq in E. subst e'. congruence.
  - exists s. split; [reflexivity|]. split; [done|].
    intros e He. destruct (String.eqb e' e) eqn:E; [|exact He].
    apply String.eqb_eq in E. subst e'. congruence.
Qed.

Lemma on_all_keeps (registrations : list (string * Callback)) (s : Session)
    (e : string) (cb : Callback) :
  callbacks s !! e = Some cb →
  ∃ s', on_all registrations s = Ret (s', Ok tt) ∧ callbacks s' !! e = Some cb.
Proof.
  revert s. induction registrations as [|[e' cb'] rest IH]; intros s H.
  - exists s. by split.
  - destruct (on_step s e' cb') as (s1 & Hon & Hkeep & _).
    destruct (IH s1 (Hkeep e cb H)) as (s' & Hrest & Hs').
    exists s'. split; [|exact Hs'].
    simpl. unfold bind. rewrite Hon; simpl. exact Hrest.
Qed.

(** First registration wins, for good.  Under an event name whose read is
    undefined, after any sequence of registrations the stored callback is
    the one of the first registration under that name in the sequence;
    [emit] invokes that callback with the payload, and does nothing when
    the sequence has no registration under the name.  No registration
    issues a request or fails. *)
Theorem on_all_first_registration_wins (registrations : list (string * Callback))
    (s : Session) (e : string) (data : JsVal) :
  callback_get (callbacks s) e = NoHandler →
  ∃ s', on_all registrations s = Ret (s', Ok tt)
    ∧ callbacks s' !! e = first_registration e registrations
    ∧ emit e data s' =
        match first_registration e registrations with
        | Some cb => await (InvokeCallback cb data) s'
        | None => Ret (s', Ok JUndefined)
        end.
Proof.
  intros H.
  assert (Hreg : ∃ s', on_all registrations s = Ret (s', Ok tt)
                   ∧ callbacks s' !! e = first_registration e registrations
                   ∧ (first_registration e registrations = None →
                      callback_get (callbacks s') e = NoHandler)).
  { revert s H. induction registrations as [|[e' cb'] rest IH]; intros s H.
    - exists s. split; [reflexivity|]. split; [|done].
      unfold callback_get in H. simpl.
      destruct (callbacks s !! e); [discriminate|reflexivity].
    - destruct (on_step s e' cb') as (s1 & Hon & _ & Hnew).
      specialize (Hnew e H). unfold first_registration; simpl.
      destruct (String.eqb e' e) eqn:E.
      + destruct (on_all_keeps rest s1 e cb' Hnew) as (s' & Hrest & Hs').
        exists s'. split; [|split; [exact Hs'|discriminate]].
        simpl. unfold bind. rewrite Hon; simpl. exact Hrest.
      + destruct (IH s1 Hnew) as (s' & Hrest & Hs' & Hnone).
        exists s'. split; [|split; [exact Hs'|exact Hnone]].
        simpl. unfold bind. rewrite Hon; simpl. exact Hrest. }
  destruct Hreg as (s' & Hon & Hs' & Hnone).
  exists s'. split; [exact Hon|]. split; [exact Hs'|].
  unfold emit, bind, get; simpl.
  destruct (first_registration e registrations) as [cb|].
  - by rewrite (callback_get_own _ _ _ Hs').
  - by rewrite (Hnone eq_refl).
Qed.

Lemma on_all_first_registration_wins_witness :
  ∃ s', on_all [("receipt"%string, CallbackId 1); ("error"%string, CallbackId 2);
                ("receipt"%string, CallbackId 3)] constructor
        = Ret (s', Ok tt)
    ∧ callbacks s' !! "receipt"%string = Some (CallbackId 1)
    ∧ emit "receipt" (JStr "0xhash") s'
      = await (InvokeCallback (CallbackId 1) (JStr "0xhash")) s'.
Proof.
  apply (on_all_first_registration_wins
           [("receipt"%string, CallbackId 1); ("error"%string, CallbackId 2);
            ("receipt"%string, CallbackId 3)]
           constructor "receipt" (JStr "0xhash")).
  reflexivity.
Defined.

(** ** Options *)

(** Zero counts as absent.  The fields of the options are tested for
    truthiness, so a nonce, gas price, gas limit or value given as 0 (or as
    any other falsy value) is not used: the transaction fields are built,
    and the transaction is submitted, exactly as without options. *)
Theorem falsy_options_are_ignored (options : TxOptions) (s : Session) :
  truthy (opt_nonce options) = false →
  truthy (opt_gasPrice options) = false →
  truthy (opt_gasLimit options) = false →
  truthy (opt_value options) = false →
  (∀ from to,
     getTransactionData from to options s = getTransactionData from to no_options s)
  ∧ (∀ fromAddress fromPrivateKey contractFnc contractData N,
       sendTxToSmartContract fromAddress fromPrivateKey contractFnc contractData
         options N s
       = sendTxToSmartContract fromAddress fromPrivateKey contractFnc contractData
           no_options N s).
Proof.
  intros Hn Hp Hl Hv. split; intros.
  - unfold getTransactionData. rewrite Hn, Hp, Hl. reflexivity.
  - unfold sendTxToSmartContract, getTransactionData.
    rewrite Hn, Hp, Hl, Hv. reflexivity.
Qed.

Lemma falsy_options_are_ignored_witness :
  getTransactionData (JStr "0xme") (JStr "0xABC")
    (mkTxOptions (JNum 0) (JNum 0) (JNum 0) (JNum 0)) booted
  = getTransactionData (JStr "0xme") (JStr "0xABC") no_options booted.
Proof.
  apply (falsy_options_are_ignored (mkTxOptions (JNum 0) (JNum 0) (JNum 0) (JNum 0))
           booted); reflexivity.
Defined.
